(** * Verification of [src/utils/clean_data.py]

    The script is a linear pandas pipeline: read the raw CSV, project eleven
    columns, coerce [date], [lat], [long], derive [hour] from [hrmn], drop
    rows that miss a critical field, drop rows with [lat == 0], cast [age]
    and [hour] to integers and write the cleaned CSV.

    The embedding follows the script line by line.  The pandas operations it
    calls are modelled on a small table type: a [DataFrame] is an index
    (row labels) and an ordered association list of named columns; a column
    ([Series]) is a list of cells. *)

From Stdlib Require Import ZArith String Ascii List Lia.
From Stdlib Require Import Floats.SpecFloat.
From stdpp Require Import base option list strings gmap pretty.

Local Open Scope string_scope.
Local Open Scope list_scope.

(** ** Cells *)

(** One cell of a pandas column as [read_csv] produces it (an integer of
    an [int64] or [uint64] column or a Python [int] of an object column, a
    [float64], a Python [str] of an object column, or the missing marker)
    or as [to_datetime] produces it (a [datetime64[ns]] value, kept as its
    number of nanoseconds since the epoch).  [NA] stands for NaN, None and
    NaT alike; a float NaN is missing as well. *)
Inductive cell : Type :=
  | NA
  | Int (z : Z)
  | Float (f : spec_float)
  | Str (s : string)
  | Timestamp (ns : Z).

Abbreviation Series := (list cell).

(** [Series.isna] on one element. *)
Definition isna (c : cell) : bool :=
  match c with
  | NA => true
  | Float S754_nan => true
  | _ => false
  end.

Definition notna (c : cell) : bool := negb (isna c).

(** ** Exceptions *)

Inductive exn : Type :=
  | FileNotFoundError
  | OtherError (msg : string)       (* any other exception of [read_csv] *)
  | KeyError (label : string)       (* the label, or the labels separated
                                       by commas, that were not found *)
  | ValueError (msg : string)
  | OverflowError.

Inductive result (A : Type) : Type :=
  | Ok (a : A)
  | Raise (e : exn).
Arguments Ok {A} a.
Arguments Raise {A} e.

#[global] Instance result_ret : MRet result := λ A a, Ok a.
#[global] Instance result_bind : MBind result := λ A B f r,
  match r with
  | Ok a => f a
  | Raise e => Raise e
  end.
#[global] Instance result_fmap : FMap result := λ A B f r,
  match r with
  | Ok a => Ok (f a)
  | Raise e => Raise e
  end.

(** [traverse f l]: apply [f] to every element, left to right; the first
    exception aborts. *)
Fixpoint traverse {A B : Type} (f : A → result B) (l : list A) : result (list B) :=
  match l with
  | [] => Ok []
  | x :: l' =>
      match f x with
      | Ok y =>
          match traverse f l' with
          | Ok ys => Ok (y :: ys)
          | Raise e => Raise e
          end
      | Raise e => Raise e
      end
  end.

(** ** float64 *)

Definition prec64 : Z := 53.
Definition emax64 : Z := 1024.
Definition int64_min : Z := - 2 ^ 63.
Definition int64_max : Z := 2 ^ 63 - 1.

(** The double nearest to an integer (exact for the small values used
    here). *)
Definition float_of_Z (z : Z) : spec_float :=
  binary_normalize prec64 emax64 z 0 false.

(** Truncation toward zero of a finite double; [None] on NaN and the
    infinities. *)
Definition float_trunc (f : spec_float) : option Z :=
  match f with
  | S754_zero _ => Some 0%Z
  | S754_finite s m e =>
      let a := if (0 <=? e)%Z then (Z.pos m * 2 ^ e)%Z
               else (Z.pos m / 2 ^ (- e))%Z in
      Some (if s then (- a)%Z else a)
  | S754_infinity _ => None
  | S754_nan => None
  end.

Definition float_is_zero (f : spec_float) : bool :=
  match f with
  | S754_zero _ => true
  | _ => false
  end.

(** ** Text of numbers and times *)

Definition digit_of (a : ascii) : option Z :=
  let n := nat_of_ascii a in
  if (48 <=? n)%nat && (n <=? 57)%nat then Some (Z.of_nat (n - 48)) else None.

Definition is_space (a : ascii) : bool :=
  let n := nat_of_ascii a in
  (n =? 32)%nat || ((9 <=? n)%nat && (n <=? 13)%nat).

Fixpoint lstrip (s : list ascii) : list ascii :=
  match s with
  | a :: s' => if is_space a then lstrip s' else s
  | [] => []
  end.

Definition strip (s : list ascii) : list ascii :=
  rev (lstrip (rev (lstrip s))).

(** Digits of a Python integer literal; a single underscore may separate
    two digits.  [acc] is the value read so far, [prev_digit] says that the
    previous character was a digit. *)
Fixpoint int_digits (acc : Z) (prev_digit : bool) (s : list ascii) : option Z :=
  match s with
  | [] => if prev_digit then Some acc else None
  | a :: s' =>
      match digit_of a with
      | Some d => int_digits (10 * acc + d)%Z true s'
      | None =>
          if (nat_of_ascii a =? 95)%nat && prev_digit
          then match s' with
               | b :: _ =>
                   match digit_of b with
                   | Some _ => int_digits acc false s'
                   | None => None
                   end
               | [] => None
               end
          else None
      end
  end.

(** The integer literals of ASCII text: surrounding white space is
    ignored, then an optional sign and the digits.  (Python's [int()] reads
    more: every Unicode decimal digit; it is a field of [Runtime] below and
    this function is what the example runtime takes for it.) *)
Definition ascii_int (s : string) : option Z :=
  match strip (list_ascii_of_string s) with
  | [] => None
  | a :: r =>
      if (nat_of_ascii a =? 45)%nat then Z.opp <$> int_digits 0 false r
      else if (nat_of_ascii a =? 43)%nat then int_digits 0 false r
      else int_digits 0 false (a :: r)
  end.

(** The regular expression pandas builds for the directive [%H]:
    [2[0-3]|[0-1]\d|\d].  Every way to match a prefix, in the order the
    regex engine tries them, with the value read and the rest. *)
Definition re_H (s : list ascii) : list (Z * list ascii) :=
  (match s with
   | a :: b :: r =>
       match digit_of a, digit_of b with
       | Some 2%Z, Some d => if (d <=? 3)%Z then [((20 + d)%Z, r)] else []
       | _, _ => []
       end
   | _ => []
   end) ++
  (match s with
   | a :: b :: r =>
       match digit_of a, digit_of b with
       | Some c, Some d => if (c <=? 1)%Z then [((10 * c + d)%Z, r)] else []
       | _, _ => []
       end
   | _ => []
   end) ++
  (match s with
   | a :: r => match digit_of a with Some d => [(d, r)] | None => [] end
   | _ => []
   end).

(** The directive [%M]: [[0-5]\d|\d]. *)
Definition re_M (s : list ascii) : list (Z * list ascii) :=
  (match s with
   | a :: b :: r =>
       match digit_of a, digit_of b with
       | Some c, Some d => if (c <=? 5)%Z then [((10 * c + d)%Z, r)] else []
       | _, _ => []
       end
   | _ => []
   end) ++
  (match s with
   | a :: r => match digit_of a with Some d => [(d, r)] | None => [] end
   | _ => []
   end).

Definition re_colon (s : list ascii) : list (list ascii) :=
  match s with
  | a :: r => if (nat_of_ascii a =? 58)%nat then [r] else []
  | [] => []
  end.

(** All matches of the format [%H:%M] at the start of [s], in priority
    order. *)
Definition re_HM (s : list ascii) : list (Z * Z * list ascii) :=
  '(h, r1) ← re_H s;
  r2 ← re_colon r1;
  '(m, r3) ← re_M r2;
  [(h, m, r3)].

(** [strptime] with format [%H:%M] and [exact=True]: the first match of
    the regex must consume the whole string. *)
Definition strptime_HM (s : string) : option (Z * Z) :=
  match re_HM (list_ascii_of_string s) with
  | (h, m, []) :: _ => Some (h, m)
  | _ => None
  end.

(** Nanoseconds since the epoch of 1900-01-01 [h]:[m]:00, the date that
    [strptime] fills in when the format has none. *)
Definition ns_per_second : Z := 1000000000.
Definition ns_per_hour : Z := 3600 * ns_per_second.
Definition epoch_1900 : Z := -2208988800.

Definition ns_of_HM (h m : Z) : Z :=
  ((epoch_1900 + h * 3600 + m * 60) * ns_per_second)%Z.

(** The [hour] field of a [datetime64[ns]] value. *)
Definition hour_of_ns (ns : Z) : Z := ((ns / ns_per_hour) mod 24)%Z.

(** ** Series operations *)

(** [pd.to_datetime(s, format='%H:%M', errors='coerce')] on one element:
    only a string can match the format (a number is first turned into its
    decimal text, which has no colon). *)
Definition to_datetime_HM_elem (c : cell) : cell :=
  match c with
  | Str t =>
      match strptime_HM t with
      | Some (h, m) => Timestamp (ns_of_HM h m)
      | None => NA
      end
  | Timestamp ns => Timestamp ns
  | _ => NA
  end.

Definition to_datetime_HM (s : Series) : Series := map to_datetime_HM_elem s.

(** [s.dt.hour] of a datetime column: [int32] when the column has no NaT,
    else [float64] with NaN at the missing places. *)
Definition dt_hour (s : Series) : Series :=
  if forallb notna s
  then map (λ c, match c with Timestamp ns => Int (hour_of_ns ns) | _ => NA end) s
  else map (λ c, match c with
                 | Timestamp ns => Float (float_of_Z (hour_of_ns ns))
                 | _ => NA
                 end) s.

(** [s != 0] on one element: NaN and strings differ from 0. *)
Definition ne_zero (c : cell) : bool :=
  match c with
  | Int z => negb (z =? 0)%Z
  | Float f => negb (float_is_zero f)
  | _ => true
  end.

(** ** DataFrame *)

Record DataFrame : Type := mkFrame {
  index : list nat;
  columns : list (string * Series)
}.

Definition len (df : DataFrame) : nat := length (index df).

Fixpoint lookup_col (c : string) (cols : list (string * Series)) : option Series :=
  match cols with
  | [] => None
  | (k, s) :: r => if String.eqb k c then Some s else lookup_col c r
  end.

(** [df[c]] *)
Definition getitem (df : DataFrame) (c : string) : result Series :=
  match lookup_col c (columns df) with
  | Some s => Ok s
  | None => Raise (KeyError c)
  end.

(** The labels of [cs] that the table lacks, in the order of [cs]. *)
Definition absent_labels (df : DataFrame) (cs : list string) : list string :=
  List.filter (λ c, match lookup_col c (columns df) with
                    | Some _ => false
                    | None => true
                    end) cs.

(** The labels named by a KeyError. *)
Fixpoint label_list (cs : list string) : string :=
  match cs with
  | [] => ""
  | [c] => c
  | c :: r => (c ++ ", " ++ label_list r)%string
  end.

(** [df[[c1, ..., cn]].copy()]: one KeyError names every label the table
    lacks. *)
Definition getitem_cols (df : DataFrame) (cs : list string) : result DataFrame :=
  match absent_labels df cs with
  | [] =>
      cols ← traverse (λ c, s ← getitem df c; Ok (c, s)) cs;
      Ok (mkFrame (index df) cols)
  | missing => Raise (KeyError (label_list missing))
  end.

Fixpoint set_col (c : string) (s : Series) (cols : list (string * Series))
  : list (string * Series) :=
  match cols with
  | [] => [(c, s)]
  | (k, v) :: r => if String.eqb k c then (k, s) :: r else (k, v) :: set_col c s r
  end.

(** [df[c] = s]: an existing column is replaced where it stands, a new one
    is appended. *)
Definition setitem (df : DataFrame) (c : string) (s : Series) : DataFrame :=
  mkFrame (index df) (set_col c s (columns df)).

(** [df.drop(columns=cs)] *)
Definition drop_columns (df : DataFrame) (cs : list string) : result DataFrame :=
  match absent_labels df cs with
  | [] =>
      Ok (mkFrame (index df)
            (List.filter (λ kv, negb (existsb (String.eqb (fst kv)) cs)) (columns df)))
  | missing => Raise (KeyError (label_list missing))
  end.

(** Keep the elements whose mask bit is set. *)
Fixpoint take_mask {A : Type} (mask : list bool) (l : list A) : list A :=
  match mask, l with
  | b :: mask', x :: l' => if b then x :: take_mask mask' l' else take_mask mask' l'
  | _, _ => []
  end.

(** [df[mask]] for a boolean mask *)
Definition getitem_mask (df : DataFrame) (mask : list bool) : DataFrame :=
  mkFrame (take_mask mask (index df))
          (map (λ kv, (fst kv, take_mask mask (snd kv))) (columns df)).

Definition notna_all (n : nat) (cols : list Series) : list bool :=
  foldr (λ s acc, zip_with andb (map notna s) acc) (replicate n true) cols.

(** [df.dropna(subset=cs)] *)
Definition dropna (df : DataFrame) (subset : list string) : result DataFrame :=
  match absent_labels df subset with
  | [] =>
      cols ← traverse (getitem df) subset;
      Ok (getitem_mask df (notna_all (len df) cols))
  | missing => Raise (KeyError (label_list missing))
  end.

(** ** Paths and the file system *)

Definition slash : ascii := ascii_of_nat 47.

Definition ends_with_slash (p : string) : bool :=
  match rev (list_ascii_of_string p) with
  | a :: _ => Ascii.eqb a slash
  | [] => false
  end.

(** [os.path.join(a, b)] (POSIX) *)
Definition path_join (a b : string) : string :=
  if String.prefix "/" b then b
  else if String.eqb a "" || ends_with_slash a then a ++ b
  else a ++ "/" ++ b.

Fixpoint drop_to_slash (r : list ascii) : list ascii :=
  match r with
  | a :: r' => if Ascii.eqb a slash then r else drop_to_slash r'
  | [] => []
  end.

Fixpoint drop_slashes (r : list ascii) : list ascii :=
  match r with
  | a :: r' => if Ascii.eqb a slash then drop_slashes r' else r
  | [] => []
  end.

(** [os.path.dirname(p)] (POSIX): the text up to the last slash, without
    trailing slashes unless it consists of slashes only. *)
Definition dirname (p : string) : string :=
  let head := drop_to_slash (rev (list_ascii_of_string p)) in
  match drop_slashes head with
  | [] => string_of_list_ascii (rev head)
  | h => string_of_list_ascii (rev h)
  end.

(** A directory and the directories above it. *)
Fixpoint ancestors (fuel : nat) (p : string) : list string :=
  match fuel with
  | O => []
  | S n =>
      if String.eqb p "" then []
      else p :: (if String.eqb (dirname p) p then [] else ancestors n (dirname p))
  end.

(** The state the script runs in: the regular files with their content,
    the directories, and what was printed so far. *)
Record World : Type := mkWorld {
  files : gmap string string;
  dirs : gset string;
  stdout : list string
}.

(** Commands of the script: they read and change the world and return a
    value or raise. *)
Definition M (A : Type) : Type := World → World * result A.

#[global] Instance M_ret : MRet M := λ A a w, (w, Ok a).
#[global] Instance M_bind : MBind M := λ A B f m w,
  match m w with
  | (w', Ok a) => f a w'
  | (w', Raise e) => (w', Raise e)
  end.

Definition lift {A : Type} (r : result A) : M A := λ w, (w, r).

(** [try: m] with the outcome handed to the [except] clauses. *)
Definition try {A : Type} (m : M A) : M (result A) := λ w,
  let '(w', r) := m w in (w', Ok r).

Definition print (line : string) : M unit := λ w,
  (mkWorld (files w) (dirs w) (stdout w ++ [line]), Ok tt).

(** [os.makedirs(d, exist_ok=True)]; the directory path is assumed not to
    be taken by a regular file. *)
Definition makedirs (d : string) : M unit := λ w,
  (mkWorld (files w) (dirs w ∪ list_to_set (ancestors (String.length d) d)) (stdout w),
   Ok tt).


Definition exn_message (e : exn) : string :=
  match e with
  | FileNotFoundError => "No such file or directory"
  | OtherError msg => msg
  | KeyError label => label
  | ValueError msg => msg
  | OverflowError => "Python int too large to convert to C long"
  end.

(** ** What the script takes from its environment

    The parsers and printers of pandas whose exact behaviour is outside the
    script, and the directory the script is installed in. *)
Class Runtime : Type := {
  (** the project root, three levels above the script file *)
  BASE_DIR : string;
  (** [pd.to_datetime] without a format on one non-missing element of a
      column: its nanoseconds since the epoch, or [None] when it cannot be
      read (the column is given too: pandas 2 guesses the format from the
      first element) *)
  parse_datetime : Series → cell → option Z;
  (** the text-to-double conversion of [pd.to_numeric] *)
  str_to_float : string → option spec_float;
  (** Python's [int(s)] on a [str]: the integer, or [None] when it raises
      ValueError *)
  python_int : string → option Z;
  (** the CSV reader of [pd.read_csv] on the content of a file: a table,
      or the message of the exception it raises *)
  parse_csv : string → string + DataFrame;
  (** the CSV text [DataFrame.to_csv(index=False)] writes *)
  to_csv : DataFrame → string
}.

(** ** Casts to integers *)

Definition in_int64 (z : Z) : bool := (int64_min <=? z)%Z && (z <=? int64_max)%Z.

(** The cast of an integer to [int64]: a value of a [uint64] column above
    [int64_max] wraps around, a Python [int] outside both ranges raises
    OverflowError. *)
Definition int_to_int64 (z : Z) : result cell :=
  if in_int64 z then Ok (Int z)
  else if (0 <=? z)%Z && (z <? 2 ^ 64)%Z then Ok (Int (z - 2 ^ 64))
  else Raise OverflowError.

Section Casts.
Context `{Runtime}.

(** [Series.astype(int)] on one element.  An integer is cast to [int64]; a
    finite [float64] is truncated by the C cast (a value outside [int64]
    gives the x86-64 "integer indefinite" [int64_min]); NaN and the
    infinities raise [IntCastingNaNError], a [ValueError]; a [str] of an
    object column goes through Python's [int()]. *)
Definition astype_int_elem (c : cell) : result cell :=
  match c with
  | Int z => int_to_int64 z
  | Float f =>
      match float_trunc f with
      | Some z =>
          if (int64_min <=? z)%Z && (z <=? int64_max)%Z then Ok (Int z)
          else Ok (Int int64_min)
      | None =>
          Raise (ValueError "Cannot convert non-finite values (NA or inf) to integer")
      end
  | NA => Raise (ValueError "Cannot convert non-finite values (NA or inf) to integer")
  | Str s =>
      match python_int s with
      | Some z =>
          if (int64_min <=? z)%Z && (z <=? int64_max)%Z then Ok (Int z)
          else Raise OverflowError
      | None => Raise (ValueError "invalid literal for int() with base 10")
      end
  | Timestamp ns => int_to_int64 ns
  end.

Definition astype_int (s : Series) : result Series := traverse astype_int_elem s.

End Casts.

(** ** The script *)

Definition COLUMNS_TO_KEEP : list string :=
  [ "Num_Acc"; "date"; "lat"; "long"; "age"; "grav"; "sexe"; "atm"; "lum";
    "dep"; "hrmn" ].

Section Script.
Context `{Runtime}.

Definition RAW_DATA_PATH : string :=
  path_join (path_join (path_join BASE_DIR "data") "raw") "accidentsVelo-full.csv".

Definition CLEANED_DATA_PATH : string :=
  path_join (path_join (path_join BASE_DIR "data") "cleaned") "accidents_cleaned.csv".

(** [pd.to_datetime(s, errors='coerce')] *)
Definition to_datetime (s : Series) : Series :=
  map (λ c, if isna c then NA
            else match parse_datetime s c with
                 | Some ns => Timestamp ns
                 | None => NA
                 end) s.

(** [pd.to_numeric(s, errors='coerce')] on one element *)
Definition to_numeric_elem (c : cell) : cell :=
  match c with
  | Str t =>
      match str_to_float t with
      | Some f => Float f
      | None => NA
      end
  | Timestamp ns => Int ns
  | _ => c
  end.

Definition to_numeric (s : Series) : Series := map to_numeric_elem s.

(** [pd.read_csv(path, sep=',', low_memory=False)] *)
Definition read_csv (path : string) : M DataFrame := λ w,
  match files w !! path with
  | None => (w, Raise FileNotFoundError)
  | Some content =>
      match parse_csv content with
      | inl msg => (w, Raise (OtherError msg))
      | inr df => (w, Ok df)
      end
  end.

(** [df.to_csv(path, index=False, encoding='utf-8')] *)
Definition to_csv_file (df : DataFrame) (path : string) : M unit := λ w,
  (mkWorld (<[path := to_csv df]> (files w)) (dirs w) (stdout w), Ok tt).

(** Lines 54-69: project the columns, convert the types, derive [hour]. *)
Definition select_and_convert (df : DataFrame) : result DataFrame :=
  df_cleaned ← getitem_cols df COLUMNS_TO_KEEP;
  date ← getitem df_cleaned "date";
  let df_cleaned := setitem df_cleaned "date" (to_datetime date) in
  lat ← getitem df_cleaned "lat";
  let df_cleaned := setitem df_cleaned "lat" (to_numeric lat) in
  long ← getitem df_cleaned "long";
  let df_cleaned := setitem df_cleaned "long" (to_numeric long) in
  hrmn ← getitem df_cleaned "hrmn";
  let df_cleaned := setitem df_cleaned "hour" (dt_hour (to_datetime_HM hrmn)) in
  drop_columns df_cleaned ["hrmn"].

(** Lines 76-79: drop the rows with a missing critical field, then the rows
    with latitude 0. *)
Definition drop_invalid (df_cleaned : DataFrame) : result DataFrame :=
  df_cleaned ← dropna df_cleaned ["date"; "lat"; "long"; "age"; "hour"];
  lat ← getitem df_cleaned "lat";
  Ok (getitem_mask df_cleaned (map ne_zero lat)).

(** Lines 86-87: cast [age] and [hour] to integers. *)
Definition finalize_types (df_cleaned : DataFrame) : result DataFrame :=
  age ← getitem df_cleaned "age";
  age ← astype_int age;
  let df_cleaned := setitem df_cleaned "age" age in
  hour ← getitem df_cleaned "hour";
  hour ← astype_int hour;
  let df_cleaned := setitem df_cleaned "hour" hour in
  Ok df_cleaned.

(** The table transformation of the script, from the table read to the
    table written. *)
Definition clean_frame (df : DataFrame) : result DataFrame :=
  df_cleaned ← select_and_convert df;
  df_cleaned ← drop_invalid df_cleaned;
  finalize_types df_cleaned.

Definition clean_data : M unit :=
  print ("Début du nettoyage... Lecture de " ++ RAW_DATA_PATH);;
  r ← try (read_csv RAW_DATA_PATH);
  match r with
  | Raise FileNotFoundError =>
      print ("ERREUR: Fichier non trouvé à " ++ RAW_DATA_PATH);;
      print "Veuillez d'abord placer 'accidentsVelo-full.csv' dans le dossier 'data/raw/'."
  | Raise e =>
      print ("Une erreur est survenue lors de la lecture du CSV : " ++ exn_message e)
  | Ok df =>
      df_cleaned ← lift (select_and_convert df);
      let initial_rows := len df_cleaned in
      df_cleaned ← lift (drop_invalid df_cleaned);
      print ("Suppression de " ++ pretty (initial_rows - len df_cleaned)
             ++ " lignes avec données manquantes ou invalides.");;
      df_cleaned ← lift (finalize_types df_cleaned);
      makedirs (dirname CLEANED_DATA_PATH);;
      to_csv_file df_cleaned CLEANED_DATA_PATH;;
      print ("Nettoyage terminé. Fichier sauvegardé dans " ++ CLEANED_DATA_PATH);;
      print ("Total des accidents conservés : " ++ pretty (len df_cleaned))
  end.

End Script.

(** ** A small runtime to run the script on examples

    ISO dates ([YYYY-MM-DD]), plain decimal numbers, CSV text without
    quoting.  The theorems below hold for every runtime; this one makes
    the examples concrete. *)

Definition days_from_civil (y m d : Z) : Z :=
  (let y' := if m <=? 2 then y - 1 else y in
   let era := y' / 400 in
   let yoe := y' - era * 400 in
   let mp := (m + 9) mod 12 in
   let doy := (153 * mp + 2) / 5 + d - 1 in
   let doe := yoe * 365 + yoe / 4 - yoe / 100 + doy in
   era * 146097 + doe - 719468)%Z.

Definition leap_year (y : Z) : bool :=
  ((y mod 4 =? 0) && (negb (y mod 100 =? 0) || (y mod 400 =? 0)))%Z.

Definition days_in_month (y m : Z) : Z :=
  (if m =? 2 then (if leap_year y then 29 else 28)
   else if (m =? 4) || (m =? 6) || (m =? 9) || (m =? 11) then 30
   else 31)%Z.

Definition iso_date (s : string) : option Z :=
  match list_ascii_of_string s with
  | [y1; y2; y3; y4; s1; m1; m2; s2; d1; d2] =>
      if (nat_of_ascii s1 =? 45)%nat && (nat_of_ascii s2 =? 45)%nat then
        a ← digit_of y1; b ← digit_of y2; c ← digit_of y3; d ← digit_of y4;
        e ← digit_of m1; f ← digit_of m2; g ← digit_of d1; h ← digit_of d2;
        let y := (1000 * a + 100 * b + 10 * c + d)%Z in
        let m := (10 * e + f)%Z in
        let dd := (10 * g + h)%Z in
        if ((1 <=? m) && (m <=? 12) && (1 <=? dd) && (dd <=? days_in_month y m))%Z
        then Some (days_from_civil y m dd * 86400 * ns_per_second)%Z
        else None
      else None
  | _ => None
  end.

Fixpoint split_on (sep : ascii) (cur : list ascii) (s : list ascii) : list (list ascii) :=
  match s with
  | [] => [rev cur]
  | a :: s' =>
      if Ascii.eqb a sep then rev cur :: split_on sep [] s'
      else split_on sep (a :: cur) s'
  end.

Fixpoint plain_digits (acc : Z) (s : list ascii) : option Z :=
  match s with
  | [] => Some acc
  | a :: s' => d ← digit_of a; plain_digits (10 * acc + d)%Z s'
  end.

(** [[-]digits[.digits]] as the quotient of two doubles. *)
Definition decimal_float (s : string) : option spec_float :=
  let l := list_ascii_of_string s in
  let '(neg, l) := match l with
                   | a :: r => if (nat_of_ascii a =? 45)%nat then (true, r) else (false, l)
                   | [] => (false, l)
                   end in
  match split_on (ascii_of_nat 46) [] l with
  | [i] =>
      if (length i =? 0)%nat then None
      else z ← plain_digits 0 i;
           Some (if neg then SFopp (float_of_Z z) else float_of_Z z)
  | [i; f] =>
      if (length i + length f =? 0)%nat then None
      else z ← plain_digits 0 (i ++ f);
           let q := SFdiv prec64 emax64 (float_of_Z z)
                          (float_of_Z (10 ^ Z.of_nat (length f))) in
           Some (if neg then SFopp q else q)
  | _ => None
  end.

Definition all_some {A : Type} (l : list (option A)) : option (list A) := mapM id l.

(** The cells of one CSV column: integers if every field is one, else
    doubles if every non-empty field is a number, else strings; an empty
    field is missing. *)
Definition infer_column (fields : list string) : Series :=
  match all_some (map ascii_int fields) with
  | Some zs => map Int zs
  | None =>
      match all_some (map (λ t, if String.eqb t "" then Some NA
                                else Float <$> decimal_float t) fields) with
      | Some cs => cs
      | None => map (λ t, if String.eqb t "" then NA else Str t) fields
      end
  end.

Definition sample_parse_csv (content : string) : string + DataFrame :=
  let lines := List.filter (λ l, negb (length l =? 0)%nat)
                 (split_on (ascii_of_nat 10) [] (list_ascii_of_string content)) in
  match map (λ l, map string_of_list_ascii (split_on (ascii_of_nat 44) [] l)) lines with
  | [] => inl "No columns to parse from file"
  | header :: rows =>
      if forallb (λ r, length r =? length header)%nat rows then
        inr (mkFrame (seq 0 (length rows))
               (imap (λ i name, (name, infer_column (map (λ r, nth i r "") rows))) header))
      else inl "Error tokenizing data"
  end.

Definition cell_text (c : cell) : string :=
  match c with
  | NA => ""
  | Int z => pretty z
  | Float (S754_finite s m e) =>
      ((if s then "-" else "") ++ pretty (Z.pos m) ++ "p" ++ pretty e)%string
  | Float (S754_zero s) => if s then "-0.0" else "0.0"
  | Float (S754_infinity s) => if s then "-inf" else "inf"
  | Float S754_nan => ""
  | Str s => s
  | Timestamp ns => pretty ns
  end.

Definition join_with (sep : string) (l : list string) : string :=
  match l with
  | [] => ""
  | x :: r => (x ++ foldr (λ y acc, sep ++ y ++ acc) "" r)%string
  end.

Definition sample_to_csv (df : DataFrame) : string :=
  let header := join_with "," (map fst (columns df)) in
  let row i := join_with "," (map (λ kv, cell_text (nth i (snd kv) NA)) (columns df)) in
  (join_with (String (ascii_of_nat 10) "") (header :: map row (seq 0 (len df)))
   ++ String (ascii_of_nat 10) "")%string.

Definition sample_runtime : Runtime := {|
  BASE_DIR := "/srv/velo";
  parse_datetime := λ _ c, match c with
                           | Str s => iso_date s
                           | Int z => Some z
                           | Timestamp ns => Some ns
                           | _ => None
                           end;
  str_to_float := decimal_float;
  python_int := ascii_int;
  parse_csv := sample_parse_csv;
  to_csv := sample_to_csv
|}.

(** ** Example data *)

Definition newline : string := String (ascii_of_nat 10) "".

(** Row 0 is the example of the specification; row 1 has latitude 0; row 2
    has an unreadable time; row 3 has longitude 0; row 4 has no age; row 5
    repeats row 0. *)
Definition sample_csv : string :=
  ("Num_Acc,date,lat,long,age,grav,sexe,atm,lum,dep,hrmn,com" ++ newline ++
   "1,2021-05-01,48.85,2.35,34,3,1,1,1,75,14:30,75101" ++ newline ++
   "2,2021-05-02,0,2.35,27,3,1,1,1,75,08:15,75102" ++ newline ++
   "3,2021-05-03,45.76,4.83,51,2,2,1,1,69,bad,69001" ++ newline ++
   "4,2021-05-04,51.5,0,19,4,1,2,3,62,23:59,62001" ++ newline ++
   "5,2021-05-05,43.3,5.37,,1,2,1,1,13,7:05,13001" ++ newline ++
   "1,2021-05-01,48.85,2.35,34,3,1,1,1,75,14:30,75101" ++ newline)%string.

Definition sample_frame : DataFrame :=
  Eval vm_compute in
    match sample_parse_csv sample_csv with
    | inr df => df
    | inl _ => mkFrame [] []
    end.

(** One row whose age is not a number: [read_csv] keeps the column as
    text. *)
Definition age_text_csv : string :=
  ("Num_Acc,date,lat,long,age,grav,sexe,atm,lum,dep,hrmn" ++ newline ++
   "1,2021-05-01,48.85,2.35,abc,3,1,1,1,75,14:30" ++ newline)%string.

Definition age_text_frame : DataFrame :=
  Eval vm_compute in
    match sample_parse_csv age_text_csv with
    | inr df => df
    | inl _ => mkFrame [] []
    end.

(** Two rows that pass the filters; the age of the second is not a
    number, so [read_csv] keeps the whole column as text. *)
Definition mixed_age_csv : string :=
  ("Num_Acc,date,lat,long,age,grav,sexe,atm,lum,dep,hrmn" ++ newline ++
   "1,2021-05-01,48.85,2.35,34,3,1,1,1,75,14:30" ++ newline ++
   "2,2021-05-02,45.76,4.83,abc,2,2,1,1,69,08:15" ++ newline)%string.

Definition mixed_age_frame : DataFrame :=
  Eval vm_compute in
    match sample_parse_csv mixed_age_csv with
    | inr df => df
    | inl _ => mkFrame [] []
    end.


Definition empty_world : World := mkWorld ∅ ∅ [].


Definition age_text_world : World :=
  mkWorld {[ @RAW_DATA_PATH sample_runtime := age_text_csv ]} ∅ [].

Definition mixed_age_world : World :=
  mkWorld {[ @RAW_DATA_PATH sample_runtime := mixed_age_csv ]} ∅ [].

(** ** Reading a table *)

(** The column [c], empty when the table has none. *)
Definition col (df : DataFrame) (c : string) : Series :=
  default [] (lookup_col c (columns df)).

(** Every column is as long as the index. *)
Definition rectangular (df : DataFrame) : bool :=
  forallb (λ kv, length (snd kv) =? len df)%nat (columns df).

(** The number of set bits before position [p]: where the element at [p]
    lands after [take_mask]. *)
Fixpoint rank (mask : list bool) (p : nat) : nat :=
  match p, mask with
  | S p', b :: mask' => (if b then 1 else 0) + rank mask' p'
  | _, _ => 0
  end.

Definition count_true (mask : list bool) : nat := length (List.filter id mask).

Section Masks.
Context `{Runtime}.

(** The columns after the conversions of lines 61-68. *)
Definition date_col (df : DataFrame) : Series := to_datetime (col df "date").
Definition lat_col (df : DataFrame) : Series := to_numeric (col df "lat").
Definition long_col (df : DataFrame) : Series := to_numeric (col df "long").
Definition hour_col (df : DataFrame) : Series := dt_hour (to_datetime_HM (col df "hrmn")).

(** The rows that pass [dropna]. *)
Definition complete_mask (df : DataFrame) : list bool :=
  notna_all (len df) [date_col df; lat_col df; long_col df; col df "age"; hour_col df].

(** The rows that pass both filters. *)
Definition keep_mask (df : DataFrame) : list bool :=
  zip_with (λ b c, b && ne_zero c) (complete_mask df) (lat_col df).

(** Rows removed by [dropna], and complete rows removed for latitude 0. *)
Definition n_incomplete (df : DataFrame) : nat :=
  length (List.filter negb (complete_mask df)).

Definition n_zero_lat (df : DataFrame) : nat :=
  length (List.filter (λ bc, fst bc && negb (ne_zero (snd bc)))
            (zip (complete_mask df) (lat_col df))).

(** The table after lines 54-69, when the eleven columns exist. *)
Definition converted (df : DataFrame) : DataFrame :=
  mkFrame (index df)
    [ ("Num_Acc", col df "Num_Acc"); ("date", date_col df); ("lat", lat_col df);
      ("long", long_col df); ("age", col df "age"); ("grav", col df "grav");
      ("sexe", col df "sexe"); ("atm", col df "atm"); ("lum", col df "lum");
      ("dep", col df "dep"); ("hour", hour_col df) ].

(** The table written, given the [age] and [hour] columns after the
    casts. *)
Definition cleaned (df : DataFrame) (age hour : Series) : DataFrame :=
  let keep := keep_mask df in
  mkFrame (take_mask keep (index df))
    [ ("Num_Acc", take_mask keep (col df "Num_Acc"));
      ("date", take_mask keep (date_col df));
      ("lat", take_mask keep (lat_col df));
      ("long", take_mask keep (long_col df));
      ("age", age);
      ("grav", take_mask keep (col df "grav"));
      ("sexe", take_mask keep (col df "sexe"));
      ("atm", take_mask keep (col df "atm"));
      ("lum", take_mask keep (col df "lum"));
      ("dep", take_mask keep (col df "dep"));
      ("hour", hour) ].

End Masks.

(** An age that is a whole number: an integer, a double without
    fractional part, or the text of an integer. *)
Definition is_integral `{Runtime} (c : cell) : bool :=
  match c with
  | Int _ => true
  | Float f =>
      match float_trunc f with
      | Some z => SFeqb f (float_of_Z z)
      | None => false
      end
  | Str s => match python_int s with Some _ => true | None => false end
  | _ => false
  end.

(** A cell of the [hour] column that stands for hour [h]. *)
Definition hour_cell (h : Z) (c : cell) : Prop :=
  c = Int h ∨ c = Float (float_of_Z h).

(** The table the example runtime computes from [sample_frame]. *)
Definition sample_out : DataFrame :=
  Eval vm_compute in
    match @clean_frame sample_runtime sample_frame with
    | Ok d => d
    | Raise _ => mkFrame [] []
    end.

(** The fifth character from the end of a path. *)
Definition fifth_from_end (p : string) : option ascii :=
  rev (list_ascii_of_string p) !! 4.

(** A number: an integer, or a double other than NaN. *)
Definition is_number (c : cell) : bool :=
  match c with
  | Int _ => true
  | Float f => notna (Float f)
  | _ => false
  end.

(** The text [HH:MM] of a time of day, two digits each. *)
Definition digit_char (d : Z) : ascii := ascii_of_nat (48 + Z.to_nat d).

Definition two_digits (n : Z) : string :=
  String (digit_char (n / 10)) (String (digit_char (n mod 10)) "").

Definition hhmm (h m : Z) : string :=
  (two_digits h ++ ":" ++ two_digits m)%string.

(** The example table without one of its columns. *)
Definition without_column (c : string) (df : DataFrame) : DataFrame :=
  mkFrame (index df)
          (List.filter (λ kv, negb (String.eqb (fst kv) c)) (columns df)).

(** A raw file that is empty: the reader raises. *)
Definition unreadable_world : World :=
  mkWorld {[ @RAW_DATA_PATH sample_runtime := "" ]} ∅ [].


(** The parse of the two-digit text of [h]:[m] is what the format
    allows. *)
Definition hhmm_parse_ok (h m : nat) : bool :=
  match strptime_HM (hhmm (Z.of_nat h) (Z.of_nat m)) with
  | Some (h', m') =>
      (h <? 24)%nat && (m <? 60)%nat
      && (h' =? Z.of_nat h)%Z && (m' =? Z.of_nat m)%Z
  | None => negb ((h <? 24)%nat && (m <? 60)%nat)
  end.

(** Projections of the world after a step of the script. *)
Ltac run := cbn [files dirs stdout fst snd].

(** * Properties *)

(** ** Masks *)

Section MaskLemmas.
Context {A : Type}.
Implicit Types (mask : list bool) (l : list A).

Lemma take_mask_nil_r mask : take_mask mask (@nil A) = [].
Proof. by destruct mask. Qed.

Lemma take_mask_lookup mask l p x :
  mask !! p = Some true → l !! p = Some x →
  take_mask mask l !! rank mask p = Some x.
Proof.
  revert l p. induction mask as [|b mask IH]; intros [|y l] [|p]; try done.
  - cbn. intros [= ->] [= ->]. done.
  - cbn. intros Hm Hl. destruct b; cbn; eauto.
Qed.

Lemma take_mask_elem_of mask l x :
  x ∈ take_mask mask l → ∃ p, mask !! p = Some true ∧ l !! p = Some x.
Proof.
  revert l. induction mask as [|b mask IH]; intros [|y l]; cbn;
    try (intros Hx; by apply not_elem_of_nil in Hx).
  destruct b.
  - intros [->|Hx]%elem_of_cons.
    + by exists 0.
    + destruct (IH _ Hx) as (p & ? & ?). by exists (S p).
  - intros Hx. destruct (IH _ Hx) as (p & ? & ?). by exists (S p).
Qed.

Lemma take_mask_sublist mask l : take_mask mask l `sublist_of` l.
Proof.
  revert l. induction mask as [|b mask IH]; intros [|y l]; cbn;
    try apply sublist_nil_l.
  destruct b; [apply sublist_skip | apply sublist_cons]; apply IH.
Qed.

Lemma take_mask_not_elem_of mask l p x :
  NoDup l → l !! p = Some x → mask !! p ≠ Some true → x ∉ take_mask mask l.
Proof.
  intros Hnd Hl Hm [q [Hq Hlq]]%take_mask_elem_of.
  assert (p = q) as -> by (eapply NoDup_lookup; eauto).
  done.
Qed.

Lemma take_mask_length mask l :
  length mask = length l → length (take_mask mask l) = count_true mask.
Proof.
  revert l. induction mask as [|b mask IH]; intros [|y l]; try done.
  cbn. intros [= Hlen]. destruct b; cbn; rewrite IH; done.
Qed.

Lemma take_mask_compose {B : Type} (f : B → bool) mask (s : list B) l :
  take_mask (map f (take_mask mask s)) (take_mask mask l)
  = take_mask (zip_with (λ b c, b && f c) mask s) l.
Proof.
  revert s l. induction mask as [|b mask IH]; intros [|c s] [|y l]; try done.
  - cbn. destruct b; [|by rewrite take_mask_nil_r].
    cbn. by destruct (f c).
  - destruct b; cbn; [destruct (f c)|]; by rewrite IH.
Qed.

End MaskLemmas.

Lemma count_true_false mask :
  count_true mask + length (List.filter negb mask) = length mask.
Proof.
  unfold count_true. induction mask as [|[] mask IH]; cbn; lia.
Qed.

(** ** Exceptions *)

Lemma traverse_lookup {A B : Type} (f : A → result B) l l' p x :
  traverse f l = Ok l' → l !! p = Some x →
  ∃ y, f x = Ok y ∧ l' !! p = Some y.
Proof.
  revert l' p. induction l as [|a l IH]; intros l' p; [done|].
  cbn. destruct (f a) as [b|] eqn:Hfa; [|done].
  destruct (traverse f l) as [bs|] eqn:Hl; [|done].
  intros [= <-]. destruct p as [|p]; cbn.
  - intros [= ->]. eauto.
  - intros Hx. eapply IH; eauto.
Qed.

Lemma traverse_elem_of {A B : Type} (f : A → result B) l l' y :
  traverse f l = Ok l' → y ∈ l' → ∃ x, x ∈ l ∧ f x = Ok y.
Proof.
  revert l'. induction l as [|a l IH]; intros l'; cbn.
  - intros [= <-] Hy. by apply not_elem_of_nil in Hy.
  - destruct (f a) as [b|] eqn:Hfa; [|done].
    destruct (traverse f l) as [bs|] eqn:Hl; [|done].
    intros [= <-] [->|Hy]%elem_of_cons.
    + exists a. split; [left|done].
    + destruct (IH _ eq_refl Hy) as (x & ? & ?). exists x. split; [by right|done].
Qed.

Lemma traverse_length {A B : Type} (f : A → result B) l l' :
  traverse f l = Ok l' → length l' = length l.
Proof.
  revert l'. induction l as [|a l IH]; intros l'; cbn.
  - by intros [= <-].
  - destruct (f a); [|done]. destruct (traverse f l); [|done].
    intros [= <-]. cbn. by rewrite IH.
Qed.

Lemma traverse_total {A B : Type} (f : A → result B) l :
  Forall (λ x, ∃ y, f x = Ok y) l → ∃ l', traverse f l = Ok l'.
Proof.
  induction 1 as [|a l [y Hy] _ [l' IH]]; cbn; [eauto|].
  rewrite Hy, IH. eauto.
Qed.

(** ** Times *)

Lemma digit_of_range a d : digit_of a = Some d → (0 ≤ d ≤ 9)%Z.
Proof.
  unfold digit_of. intros Hd. case_match; [|done].
  apply andb_prop in H as [H1%Nat.leb_le H2%Nat.leb_le].
  injection Hd as <-. lia.
Qed.

Lemma re_H_range s h r : (h, r) ∈ re_H s → (0 ≤ h ≤ 23)%Z.
Proof.
  unfold re_H. intros Hin.
  repeat (apply elem_of_app in Hin as [Hin|Hin]);
    repeat (case_match; try by apply not_elem_of_nil in Hin);
    apply list_elem_of_singleton in Hin; simplify_eq;
    repeat match goal with
           | Hd : digit_of _ = Some _ |- _ => apply digit_of_range in Hd
           | Hb : (_ <=? _)%Z = true |- _ => apply Z.leb_le in Hb
           end; lia.
Qed.

Lemma re_M_range s m r : (m, r) ∈ re_M s → (0 ≤ m ≤ 59)%Z.
Proof.
  unfold re_M. intros Hin.
  repeat (apply elem_of_app in Hin as [Hin|Hin]);
    repeat (case_match; try by apply not_elem_of_nil in Hin);
    apply list_elem_of_singleton in Hin; simplify_eq;
    repeat match goal with
           | Hd : digit_of _ = Some _ |- _ => apply digit_of_range in Hd
           | Hb : (_ <=? _)%Z = true |- _ => apply Z.leb_le in Hb
           end; lia.
Qed.

Lemma strptime_HM_range s h m :
  strptime_HM s = Some (h, m) → (0 ≤ h ≤ 23)%Z ∧ (0 ≤ m ≤ 59)%Z.
Proof.
  unfold strptime_HM. intros Hs.
  destruct (re_HM (list_ascii_of_string s)) as [|[[h' m'] [|? ?]] rest] eqn:Hre;
    [done| |done].
  injection Hs as -> ->.
  assert ((h, m, []) ∈ re_HM (list_ascii_of_string s)) as Hin
    by (rewrite Hre; left).
  unfold re_HM in Hin.
  apply list_elem_of_bind in Hin as ([h1 r1] & Hin & HH).
  apply list_elem_of_bind in Hin as (r2 & Hin & _).
  apply list_elem_of_bind in Hin as ([m1 r3] & Hin & HM).
  apply list_elem_of_singleton in Hin. injection Hin as -> -> _.
  split; [by eapply re_H_range | by eapply re_M_range].
Qed.

Lemma hour_of_ns_range ns : (0 ≤ hour_of_ns ns ≤ 23)%Z.
Proof. unfold hour_of_ns. pose proof (Z.mod_pos_bound (ns / ns_per_hour) 24). lia. Qed.

Lemma hour_of_ns_HM h m :
  (0 ≤ h ≤ 23)%Z → (0 ≤ m ≤ 59)%Z → hour_of_ns (ns_of_HM h m) = h.
Proof.
  intros Hh Hm. unfold hour_of_ns, ns_of_HM, ns_per_hour, ns_per_second, epoch_1900.
  replace ((-2208988800 + h * 3600 + m * 60) * 1000000000)%Z
    with (m * 60000000000 + (h + 24 * -25567) * (3600 * 1000000000))%Z by lia.
  rewrite Z.div_add by lia.
  rewrite (Z.div_small (m * 60000000000)) by lia.
  replace (0 + (h + 24 * -25567))%Z with (h + -25567 * 24)%Z by lia.
  rewrite Z.mod_add by lia. apply Z.mod_small. lia.
Qed.

Lemma astype_int_hour_float `{Runtime} h :
  (0 ≤ h ≤ 23)%Z → astype_int_elem (Float (float_of_Z h)) = Ok (Int h).
Proof.
  intros Hh. rewrite <- (Z2Nat.id h) by lia.
  assert (Z.to_nat h < 24)%nat as Hn by lia.
  revert Hn. generalize (Z.to_nat h) as n. clear. intros n Hn.
  do 24 (destruct n as [|n]; [by vm_compute|]). lia.
Qed.

Lemma float_of_hour_notna h : (0 ≤ h ≤ 23)%Z → isna (Float (float_of_Z h)) = false.
Proof.
  intros Hh. rewrite <- (Z2Nat.id h) by lia.
  assert (Z.to_nat h < 24)%nat as Hn by lia.
  revert Hn. generalize (Z.to_nat h) as n. clear. intros n Hn.
  do 24 (destruct n as [|n]; [by vm_compute|]). lia.
Qed.

(** ** The table transformation, stage by stage *)

Lemma absent_labels_elem df cs c :
  c ∈ absent_labels df cs ↔ c ∈ cs ∧ lookup_col c (columns df) = None.
Proof.
  unfold absent_labels. rewrite list_elem_of_In, filter_In, <- list_elem_of_In.
  destruct (lookup_col c (columns df)); split; intros [? ?]; done.
Qed.

Lemma absent_labels_nil df cs :
  absent_labels df cs = [] ↔ ∀ c, c ∈ cs → is_Some (lookup_col c (columns df)).
Proof.
  split.
  - intros Hnil c Hc. destruct (lookup_col c (columns df)) as [s|] eqn:Hs; [eauto|].
    assert (c ∈ absent_labels df cs) as Hin by (by apply absent_labels_elem).
    rewrite Hnil in Hin. by apply not_elem_of_nil in Hin.
  - intros Hall. destruct (absent_labels df cs) as [|c l] eqn:Habs; [done|].
    assert (c ∈ absent_labels df cs) as [Hc Hnone]%absent_labels_elem
      by (rewrite Habs; left).
    destruct (Hall c Hc) as [s Hs]. congruence.
Qed.

Section Stages.
Context `{Runtime}.

Lemma bind_Ok {A B : Type} (f : A → result B) (a : A) : Ok a ≫= f = f a.
Proof. done. Qed.

Lemma getitem_cols_inv df cs d :
  getitem_cols df cs = Ok d →
  d = mkFrame (index df) (map (λ c, (c, col df c)) cs)
  ∧ ∀ c, c ∈ cs → is_Some (lookup_col c (columns df)).
Proof.
  unfold getitem_cols. destruct (absent_labels df cs); [|done].
  destruct (traverse _ cs) as [cols|] eqn:Hcols; cbn; [|done].
  intros [= <-]. revert cols Hcols.
  induction cs as [|c cs IH]; intros cols; cbn.
  - intros [= <-]. split; [done|]. intros c Hc. by apply not_elem_of_nil in Hc.
  - unfold getitem at 1, col at 1.
    destruct (lookup_col c (columns df)) as [s|] eqn:Hc; cbn; [|done].
    destruct (traverse _ cs) as [cols'|] eqn:Hcs; [|done].
    intros [= <-]. destruct (IH _ eq_refl) as [[= ->] Hall].
    split; [done|]. intros c' [->|Hc']%elem_of_cons; eauto.
Qed.

Lemma select_and_convert_inv df d :
  select_and_convert df = Ok d →
  d = converted df ∧ ∀ c, c ∈ COLUMNS_TO_KEEP → is_Some (lookup_col c (columns df)).
Proof.
  unfold select_and_convert.
  destruct (getitem_cols df COLUMNS_TO_KEEP) as [d0|] eqn:Hsel; [|done].
  apply getitem_cols_inv in Hsel as [-> Hall].
  cbn. intros [= <-]. done.
Qed.

Lemma getitem_cols_total df cs :
  (∀ c, c ∈ cs → is_Some (lookup_col c (columns df))) →
  getitem_cols df cs = Ok (mkFrame (index df) (map (λ c, (c, col df c)) cs)).
Proof.
  intros Hall. unfold getitem_cols.
  rewrite (proj2 (absent_labels_nil df cs) Hall).
  assert (traverse (λ c, s ← getitem df c; Ok (c, s)) cs
          = Ok (map (λ c, (c, col df c)) cs)) as ->; [|done].
  induction cs as [|c cs IH]; cbn; [done|].
  destruct (Hall c) as [s Hs]; [left|].
  unfold getitem at 1, col at 1. rewrite Hs. cbn.
  rewrite IH; [done|]. intros c' Hc'. apply Hall. by right.
Qed.

Lemma select_and_convert_total df :
  (∀ c, c ∈ COLUMNS_TO_KEEP → is_Some (lookup_col c (columns df))) →
  select_and_convert df = Ok (converted df).
Proof.
  intros Hall. unfold select_and_convert.
  rewrite (getitem_cols_total _ _ Hall). done.
Qed.

Lemma drop_invalid_converted df :
  drop_invalid (converted df)
  = Ok (getitem_mask (converted df) (keep_mask df)).
Proof.
  unfold drop_invalid, dropna. cbn.
  unfold getitem_mask. cbn. unfold keep_mask, complete_mask, len.
  by rewrite !take_mask_compose.
Qed.

Lemma finalize_types_filtered df :
  finalize_types (getitem_mask (converted df) (keep_mask df))
  = (age ← astype_int (take_mask (keep_mask df) (col df "age"));
     hour ← astype_int (take_mask (keep_mask df) (hour_col df));
     Ok (cleaned df age hour)).
Proof.
  unfold finalize_types. cbn.
  destruct (astype_int (take_mask (keep_mask df) (col df "age"))); cbn; [|done].
  destruct (astype_int (take_mask (keep_mask df) (hour_col df))); cbn; done.
Qed.

(** What [clean_frame] returns when it returns. *)
Lemma clean_frame_inv df out :
  clean_frame df = Ok out →
  ∃ age hour,
    astype_int (take_mask (keep_mask df) (col df "age")) = Ok age
    ∧ astype_int (take_mask (keep_mask df) (hour_col df)) = Ok hour
    ∧ out = cleaned df age hour
    ∧ ∀ c, c ∈ COLUMNS_TO_KEEP → is_Some (lookup_col c (columns df)).
Proof.
  unfold clean_frame.
  destruct (select_and_convert df) as [d|] eqn:Hsel; [|done].
  apply select_and_convert_inv in Hsel as [-> Hall].
  rewrite bind_Ok, drop_invalid_converted, bind_Ok, finalize_types_filtered.
  destruct (astype_int (take_mask (keep_mask df) (col df "age"))) as [age|];
    [|done].
  rewrite bind_Ok.
  destruct (astype_int (take_mask (keep_mask df) (hour_col df))) as [hour|];
    [|done].
  rewrite bind_Ok.
  intros [= <-]. eauto 10.
Qed.

End Stages.

(** ** Rows *)

Lemma list_map_lookup {A B : Type} (f : A → B) (l : list A) (p : nat) :
  map f l !! p = f <$> (l !! p).
Proof. revert p. induction l as [|x l IH]; intros [|p]; cbn; auto. Qed.

Lemma take_mask_lookup_eq {A : Type} (mask : list bool) (l : list A) p :
  mask !! p = Some true → take_mask mask l !! rank mask p = l !! p.
Proof.
  revert l p. induction mask as [|b mask IH]; intros [|y l] [|p]; cbn;
    try done.
  - by intros [= ->].
  - intros Hm. destruct b; cbn; eauto.
Qed.

Lemma rank_lt (mask : list bool) p1 p2 :
  p1 < p2 → mask !! p1 = Some true → rank mask p1 < rank mask p2.
Proof.
  revert p1 p2. induction mask as [|b mask IH]; intros [|p1] [|p2]; try done;
    try lia.
  - cbn. intros _ [= ->]. lia.
  - cbn. intros Hlt Hm. assert (rank mask p1 < rank mask p2) by (apply IH; [lia|done]).
    lia.
Qed.

Lemma notna_all_lookup n cols p :
  notna_all n cols !! p = Some true ↔
  p < n ∧ Forall (λ s, ∃ c, s !! p = Some c ∧ notna c = true) cols.
Proof.
  induction cols as [|s cols IH].
  - cbn. rewrite lookup_replicate. split.
    + intros [_ ?]. split; [done|constructor].
    + by intros [? _].
  - change (notna_all n (s :: cols))
      with (zip_with andb (map notna s) (notna_all n cols)).
    rewrite lookup_zip_with, list_map_lookup. split.
    + destruct (s !! p) as [c|] eqn:Hc;
        destruct (notna_all n cols !! p) as [b|] eqn:Hb; cbn; try done.
      intros [= [Hn ->]%andb_prop]. destruct IH as [IH _].
      destruct (IH eq_refl) as [? ?]. split; [done|]. constructor; eauto.
    + intros [Hp Hall]. inversion Hall as [|? ? (c & Hc & Hn) Hall']; subst.
      rewrite Hc. destruct IH as [_ IH]. rewrite IH by done. cbn.
      by rewrite Hn.
Qed.

Lemma hour_cell_notna h c : (0 ≤ h ≤ 23)%Z → hour_cell h c → notna c = true.
Proof.
  intros Hh [->| ->]; [done|]. unfold notna. by rewrite float_of_hour_notna.
Qed.

Lemma int_to_int64_in_range z :
  (int64_min ≤ z ≤ int64_max)%Z → int_to_int64 z = Ok (Int z).
Proof.
  intros Hz. unfold int_to_int64, in_int64.
  destruct (Z.leb_spec int64_min z), (Z.leb_spec z int64_max); (done || lia).
Qed.

Lemma int_to_int64_range z y :
  int_to_int64 z = Ok y → ∃ n, y = Int n ∧ (int64_min ≤ n ≤ int64_max)%Z.
Proof.
  unfold int_to_int64, in_int64, int64_min, int64_max.
  destruct (Z.leb_spec (- 2 ^ 63) z), (Z.leb_spec z (2 ^ 63 - 1)); cbn;
    try (intros [= <-]; eexists; split; [done|lia]).
  - destruct (Z.leb_spec 0 z), (Z.ltb_spec z (2 ^ 64)); cbn; try done.
    intros [= <-]; eexists; split; [done|lia].
  - destruct (Z.leb_spec 0 z), (Z.ltb_spec z (2 ^ 64)); cbn; try done.
    lia.
  - lia.
Qed.

Lemma hour_cell_astype `{Runtime} h c :
  (0 ≤ h ≤ 23)%Z → hour_cell h c → astype_int_elem c = Ok (Int h).
Proof.
  intros Hh [->| ->]; [|by apply astype_int_hour_float].
  apply int_to_int64_in_range. unfold int64_min, int64_max. lia.
Qed.

Lemma dt_hour_lookup s p :
  dt_hour s !! p =
  (λ c, match c with
        | Timestamp ns =>
            if forallb notna s then Int (hour_of_ns ns)
            else Float (float_of_Z (hour_of_ns ns))
        | _ => NA
        end) <$> (s !! p).
Proof.
  unfold dt_hour. destruct (forallb notna s); rewrite list_map_lookup;
    destruct (s !! p) as [[]|]; done.
Qed.

Lemma dt_hour_timestamp s p ns :
  s !! p = Some (Timestamp ns) → ∃ c, dt_hour s !! p = Some c ∧ hour_cell (hour_of_ns ns) c.
Proof.
  intros Hs. rewrite dt_hour_lookup, Hs. cbn.
  destruct (forallb notna s); eexists; (split; [done|]); [by left|by right].
Qed.

Lemma dt_hour_elem s c :
  c ∈ dt_hour s → c = NA ∨ ∃ ns, hour_cell (hour_of_ns ns) c.
Proof.
  intros (p & Hp)%list_elem_of_lookup. rewrite dt_hour_lookup in Hp.
  destruct (s !! p) as [[]|]; cbn in Hp; try (injection Hp as <-; by left);
    [|done].
  right. exists ns. injection Hp as <-.
  destruct (forallb notna s); [by left|by right].
Qed.

Lemma is_integral_notna `{Runtime} a : is_integral a = true → notna a = true.
Proof.
  destruct a as [| |f| |]; try done. cbn. by destruct f.
Qed.

Section Keep.
Context `{Runtime}.

Lemma keep_mask_lookup df p :
  keep_mask df !! p = Some true ↔
  p < len df
  ∧ (∃ c, date_col df !! p = Some c ∧ notna c = true)
  ∧ (∃ c, lat_col df !! p = Some c ∧ notna c = true ∧ ne_zero c = true)
  ∧ (∃ c, long_col df !! p = Some c ∧ notna c = true)
  ∧ (∃ c, col df "age" !! p = Some c ∧ notna c = true)
  ∧ (∃ c, hour_col df !! p = Some c ∧ notna c = true).
Proof.
  unfold keep_mask, complete_mask. rewrite lookup_zip_with. split.
  - destruct (notna_all _ _ !! p) as [b|] eqn:Hb; [|done].
    destruct (lat_col df !! p) as [la|] eqn:Hla; [|done].
    cbn. intros [= [-> Hz]%andb_prop].
    apply notna_all_lookup in Hb as [Hp Hall].
    repeat match goal with
           | Hf : Forall _ (_ :: _) |- _ => apply Forall_cons in Hf as [? Hf]
           end.
    destruct H1 as (la' & Hla' & ?). assert (la' = la) as -> by congruence.
    eauto 15.
  - intros (Hp & Hd & (la & Hla & Hn & Hz) & Hlo & Ha & Hh).
    assert (notna_all (len df)
              [date_col df; lat_col df; long_col df; col df "age"; hour_col df]
            !! p = Some true) as ->.
    { apply notna_all_lookup. split; [done|].
      repeat constructor; eauto. }
    rewrite Hla. cbn. by rewrite Hz.
Qed.

Lemma date_col_lookup df p :
  date_col df !! p =
  (λ c, if isna c then NA
        else match parse_datetime (col df "date") c with
             | Some ns => Timestamp ns
             | None => NA
             end) <$> (col df "date" !! p).
Proof. unfold date_col, to_datetime. apply list_map_lookup. Qed.

Lemma lat_col_lookup df p :
  lat_col df !! p = to_numeric_elem <$> (col df "lat" !! p).
Proof. apply list_map_lookup. Qed.

Lemma long_col_lookup df p :
  long_col df !! p = to_numeric_elem <$> (col df "long" !! p).
Proof. apply list_map_lookup. Qed.

Lemma hour_col_lookup df p :
  hour_col df !! p =
  (λ c, match to_datetime_HM_elem c with
        | Timestamp ns =>
            if forallb notna (to_datetime_HM (col df "hrmn")) then Int (hour_of_ns ns)
            else Float (float_of_Z (hour_of_ns ns))
        | _ => NA
        end) <$> (col df "hrmn" !! p).
Proof.
  unfold hour_col. rewrite dt_hour_lookup. unfold to_datetime_HM at 2.
  rewrite list_map_lookup. by destruct (col df "hrmn" !! p).
Qed.

(** The hour cell of a row whose time reads as [h]:[m]. *)
Lemma hour_col_parsed df p s h m :
  col df "hrmn" !! p = Some (Str s) → strptime_HM s = Some (h, m) →
  ∃ c, hour_col df !! p = Some c ∧ hour_cell h c.
Proof.
  intros Hs Hhm. destruct (strptime_HM_range _ _ _ Hhm) as [Hh Hm].
  unfold hour_col.
  destruct (dt_hour_timestamp (to_datetime_HM (col df "hrmn")) p (ns_of_HM h m))
    as (c & Hc & Hcell).
  { unfold to_datetime_HM. rewrite list_map_lookup, Hs. cbn. by rewrite Hhm. }
  rewrite hour_of_ns_HM in Hcell by done. eauto.
Qed.

Lemma cleaned_index df out :
  clean_frame df = Ok out → index out = take_mask (keep_mask df) (index df).
Proof. intros (age & hour & _ & _ & -> & _)%clean_frame_inv. done. Qed.

Lemma row_kept df out p i :
  clean_frame df = Ok out → index df !! p = Some i →
  keep_mask df !! p = Some true →
  index out !! rank (keep_mask df) p = Some i.
Proof.
  intros Hout Hi Hk. rewrite (cleaned_index _ _ Hout).
  by apply take_mask_lookup.
Qed.

Lemma row_dropped df out p i :
  clean_frame df = Ok out → NoDup (index df) → index df !! p = Some i →
  keep_mask df !! p ≠ Some true → i ∉ index out.
Proof.
  intros Hout Hnd Hi Hk. rewrite (cleaned_index _ _ Hout).
  by eapply take_mask_not_elem_of.
Qed.

(** The cast of the [hour] column cannot fail on the rows kept. *)
Lemma hour_cast_total df :
  ∃ hour, astype_int (take_mask (keep_mask df) (hour_col df)) = Ok hour.
Proof.
  apply traverse_total, Forall_forall. intros c Hc.
  apply take_mask_elem_of in Hc as (p & Hk & Hp).
  apply keep_mask_lookup in Hk as (_ & _ & _ & _ & _ & (c' & Hc' & Hn)).
  assert (c' = c) as -> by congruence.
  assert (c ∈ hour_col df) as Hin by (eapply list_elem_of_lookup_2; eauto).
  apply dt_hour_elem in Hin as [->|[ns Hcell]]; [done|].
  exists (Int (hour_of_ns ns)). apply hour_cell_astype; [|done].
  apply hour_of_ns_range.
Qed.

(** The transformation returns a table as soon as the eleven columns exist
    and every age on a kept row can be cast. *)
Lemma clean_frame_total df :
  (∀ c, c ∈ COLUMNS_TO_KEEP → is_Some (lookup_col c (columns df))) →
  (∀ p a, keep_mask df !! p = Some true → col df "age" !! p = Some a →
          ∃ z, astype_int_elem a = Ok (Int z)) →
  ∃ out, clean_frame df = Ok out.
Proof.
  intros Hall Hage. unfold clean_frame.
  rewrite (select_and_convert_total _ Hall), bind_Ok, drop_invalid_converted,
    bind_Ok, finalize_types_filtered.
  destruct (traverse_total astype_int_elem
              (take_mask (keep_mask df) (col df "age"))) as [age Hage'].
  { apply Forall_forall. intros a (p & Hk & Hp)%take_mask_elem_of.
    destruct (Hage p a Hk Hp) as [z Hz]. eauto. }
  destruct (hour_cast_total df) as [hour Hhour].
  fold (astype_int (take_mask (keep_mask df) (col df "age"))) in Hage'.
  rewrite Hage', bind_Ok, Hhour, bind_Ok. eauto.
Qed.

End Keep.

Lemma take_mask_lookup_inv {A : Type} (mask : list bool) (l : list A) q x :
  take_mask mask l !! q = Some x →
  ∃ p, mask !! p = Some true ∧ l !! p = Some x ∧ rank mask p = q.
Proof.
  revert l q. induction mask as [|b mask IH]; intros [|y l] q; cbn; try done.
  destruct b.
  - destruct q as [|q]; cbn.
    + intros [= ->]. by exists 0.
    + intros Hq. destruct (IH _ _ Hq) as (p & ? & ? & ?). exists (S p). cbn. auto.
  - intros Hq. destruct (IH _ _ Hq) as (p & ? & ? & ?). exists (S p). cbn. auto.
Qed.

(** * Properties of the specification *)

(** When the transformation returns a table, a row with a readable date,
    a numeric latitude other than 0, a numeric longitude, a whole-number
    age and a time in HH:MM format is in it: its label is in the output, at
    that place [hour] is the hour read from [hrmn], the output has no
    column [hrmn], and [Num_Acc], [grav], [sexe], [atm], [lum] and [dep]
    are as in the input. *)
Lemma valid_row_is_kept `{Runtime} df out p i d ns la lo a s h m :
  clean_frame df = Ok out →
  index df !! p = Some i →
  col df "date" !! p = Some d → isna d = false →
  parse_datetime (col df "date") d = Some ns →
  col df "lat" !! p = Some la → notna (to_numeric_elem la) = true →
  ne_zero (to_numeric_elem la) = true →
  col df "long" !! p = Some lo → notna (to_numeric_elem lo) = true →
  col df "age" !! p = Some a → is_integral a = true →
  col df "hrmn" !! p = Some (Str s) → strptime_HM s = Some (h, m) →
  ∃ q, index out !! q = Some i
       ∧ col out "hour" !! q = Some (Int h)
       ∧ lookup_col "hrmn" (columns out) = None
       ∧ ∀ c, c ∈ ["Num_Acc"; "grav"; "sexe"; "atm"; "lum"; "dep"] →
              col out c !! q = col df c !! p.
Proof.
  intros Hout Hi Hd Hdn Hdp Hla Hlan Hlaz Hlo Hlon Ha Hai Hs Hhm.
  destruct (strptime_HM_range _ _ _ Hhm) as [Hh Hm].
  destruct (hour_col_parsed df p s h m Hs Hhm) as (hc & Hhc & Hcell).
  assert (keep_mask df !! p = Some true) as Hk.
  { apply keep_mask_lookup. split; [by eapply lookup_lt_Some|].
    split; [|split; [|split; [|split]]].
    - exists (Timestamp ns). by rewrite date_col_lookup, Hd; cbn; rewrite Hdn, Hdp.
    - exists (to_numeric_elem la). by rewrite lat_col_lookup, Hla.
    - exists (to_numeric_elem lo). by rewrite long_col_lookup, Hlo.
    - exists a. split; [done|]. by apply is_integral_notna.
    - exists hc. split; [done|]. by eapply hour_cell_notna. }
  exists (rank (keep_mask df) p).
  split; [by eapply row_kept|].
  apply clean_frame_inv in Hout as (age & hour & _ & Hhour & -> & _).
  split; [|split; [done|]].
  - change (col (cleaned df age hour) "hour") with hour.
    destruct (traverse_lookup _ _ _ (rank (keep_mask df) p) hc Hhour)
      as (y & Hy & ->); [by rewrite take_mask_lookup_eq|].
    rewrite (hour_cell_astype h hc) in Hy by done. by injection Hy as <-.
  - intros c Hc.
    repeat (apply elem_of_cons in Hc as [->|Hc];
            [by apply take_mask_lookup_eq|]).
    by apply not_elem_of_nil in Hc.
Qed.


(** C4: a row whose latitude is 0 is not in the output, whatever its other
    fields; the filter looks at the latitude only: a row with longitude 0,
    a latitude other than 0 and the other fields valid is in the output. *)
Theorem zero_latitude_row_is_dropped `{Runtime} df out p i :
  clean_frame df = Ok out →
  NoDup (index df) →
  index df !! p = Some i →
  (∀ la, col df "lat" !! p = Some la → ne_zero (to_numeric_elem la) = false →
         i ∉ index out)
  ∧ (∀ d ns la lo a s h m,
       col df "long" !! p = Some lo → notna (to_numeric_elem lo) = true →
       ne_zero (to_numeric_elem lo) = false →
       col df "date" !! p = Some d → isna d = false →
       parse_datetime (col df "date") d = Some ns →
       col df "lat" !! p = Some la → notna (to_numeric_elem la) = true →
       ne_zero (to_numeric_elem la) = true →
       col df "age" !! p = Some a → notna a = true →
       col df "hrmn" !! p = Some (Str s) → strptime_HM s = Some (h, m) →
       i ∈ index out).
Proof.
  intros Hout Hnd Hi. split.
  - intros la Hla Hz. eapply row_dropped; eauto.
    intros (_ & _ & (la' & Hla' & _ & Hz') & _)%keep_mask_lookup.
    rewrite lat_col_lookup, Hla in Hla'. injection Hla' as <-. congruence.
  - intros d ns la lo a s h m Hlo Hlon _ Hd Hdn Hdp Hla Hlan Hlaz Ha Han Hs Hhm.
    destruct (strptime_HM_range _ _ _ Hhm) as [Hh Hm].
    destruct (hour_col_parsed df p s h m Hs Hhm) as (hc & Hhc & Hcell).
    eapply list_elem_of_lookup_2, row_kept; eauto.
    apply keep_mask_lookup. split; [by eapply lookup_lt_Some|].
    split; [|split; [|split; [|split]]].
    + exists (Timestamp ns). by rewrite date_col_lookup, Hd; cbn; rewrite Hdn, Hdp.
    + exists (to_numeric_elem la). by rewrite lat_col_lookup, Hla.
    + exists (to_numeric_elem lo). by rewrite long_col_lookup, Hlo.
    + eauto.
    + exists hc. split; [done|]. by eapply hour_cell_notna.
Qed.

(** C5: when the pipeline succeeds, the output has exactly the eleven
    columns Num_Acc, date, lat, long, age, grav, sexe, atm, lum, dep, hour,
    whatever other columns the input had, and no column [hrmn]. *)
Theorem output_columns `{Runtime} df out :
  clean_frame df = Ok out →
  map fst (columns out)
  = ["Num_Acc"; "date"; "lat"; "long"; "age"; "grav"; "sexe"; "atm"; "lum";
     "dep"; "hour"]
  ∧ "hrmn" ∉ map fst (columns out).
Proof.
  intros (age & hour & _ & _ & -> & _)%clean_frame_inv. cbn.
  split; [done|]. intros Hin.
  repeat (apply elem_of_cons in Hin as [[=]|Hin]).
  by apply not_elem_of_nil in Hin.
Qed.

(** C9: in every row of the output, [hour] is an integer between 0 and
    23. *)
Theorem hour_in_range `{Runtime} df out q i :
  clean_frame df = Ok out →
  index out !! q = Some i →
  ∃ h, col out "hour" !! q = Some (Int h) ∧ (0 ≤ h ≤ 23)%Z.
Proof.
  intros Hout Hq. rewrite (cleaned_index _ _ Hout) in Hq.
  apply take_mask_lookup_inv in Hq as (p & Hk & _ & <-).
  apply clean_frame_inv in Hout as (age & hour & _ & Hhour & -> & _).
  change (col (cleaned df age hour) "hour") with hour.
  pose proof Hk as (_ & _ & _ & _ & _ & (c & Hc & Hn))%keep_mask_lookup.
  destruct (traverse_lookup _ _ _ (rank (keep_mask df) p) c Hhour)
    as (y & Hy & ->); [by rewrite take_mask_lookup_eq|].
  assert (c ∈ hour_col df) as Hin by (eapply list_elem_of_lookup_2; eauto).
  apply dt_hour_elem in Hin as [->|[ns Hcell]]; [done|].
  pose proof (hour_of_ns_range ns).
  rewrite (hour_cell_astype _ c) in Hy by done. injection Hy as <-. eauto.
Qed.

(** C10: the output rows are the surviving input rows in their input
    order: the output index and the untouched columns are the input ones
    filtered by one mask, a row that passes the filters lands at its rank
    among the passing rows, and two passing rows (equal or not) keep their
    order and stay two rows. *)
Theorem row_order_preserved `{Runtime} df out :
  clean_frame df = Ok out →
  index out = take_mask (keep_mask df) (index df)
  ∧ index out `sublist_of` index df
  ∧ (∀ c, c ∈ ["Num_Acc"; "grav"; "sexe"; "atm"; "lum"; "dep"] →
          col out c = take_mask (keep_mask df) (col df c))
  ∧ (∀ p i, index df !! p = Some i → keep_mask df !! p = Some true →
            index out !! rank (keep_mask df) p = Some i)
  ∧ (∀ p1 p2, p1 < p2 → keep_mask df !! p1 = Some true →
              keep_mask df !! p2 = Some true →
              rank (keep_mask df) p1 < rank (keep_mask df) p2).
Proof.
  intros Hout. pose proof (cleaned_index _ _ Hout) as Hidx.
  split; [done|]. split; [rewrite Hidx; apply take_mask_sublist|].
  split.
  - apply clean_frame_inv in Hout as (age & hour & _ & _ & -> & _).
    intros c Hc.
    repeat (apply elem_of_cons in Hc as [->|Hc]; [done|]).
    by apply not_elem_of_nil in Hc.
  - split.
    + intros p i Hi Hk. by eapply row_kept.
    + intros p1 p2 Hlt Hk1 _. by apply rank_lt.
Qed.

(** ** Counting rows *)

Lemma rectangular_col df c s :
  rectangular df = true → lookup_col c (columns df) = Some s →
  length s = len df.
Proof.
  unfold rectangular. generalize (len df) as n. intros n.
  induction (columns df) as [|[k v] cols IH]; cbn; [done|].
  intros [Hv Hcols]%andb_prop. destruct (String.eqb k c).
  - intros [= <-]. by apply Nat.eqb_eq.
  - by apply IH.
Qed.

Lemma notna_all_length n cols :
  Forall (λ s : Series, length s = n) cols → length (notna_all n cols) = n.
Proof.
  induction 1 as [|s cols Hs _ IH]; cbn; [apply length_replicate|].
  fold (notna_all n cols). rewrite length_zip_with, length_map. lia.
Qed.

Lemma dt_hour_length s : length (dt_hour s) = length s.
Proof. unfold dt_hour. destruct (forallb notna s); apply length_map. Qed.

Lemma keep_accounting (mask : list bool) (l : Series) :
  length mask = length l →
  count_true (zip_with (λ b c, b && ne_zero c) mask l)
  + length (List.filter negb mask)
  + length (List.filter (λ bc, fst bc && negb (ne_zero (snd bc))) (zip mask l))
  = length mask.
Proof.
  unfold count_true. revert l.
  induction mask as [|b mask IH]; intros [|c l]; try done.
  intros [= Hlen]. specialize (IH l Hlen). cbn.
  destruct b, (ne_zero c); cbn; lia.
Qed.

Section Counting.
Context `{Runtime}.

Lemma complete_mask_length df :
  rectangular df = true →
  (∀ c, c ∈ COLUMNS_TO_KEEP → is_Some (lookup_col c (columns df))) →
  length (complete_mask df) = len df ∧ length (lat_col df) = len df.
Proof.
  intros Hrect Hall.
  assert (∀ c, c ∈ COLUMNS_TO_KEEP → length (col df c) = len df) as Hlen.
  { intros c Hc. destruct (Hall c Hc) as [s Hs]. unfold col. rewrite Hs.
    by eapply rectangular_col. }
  assert (length (lat_col df) = len df) as Hlat.
  { unfold lat_col, to_numeric. rewrite length_map. apply Hlen.
    unfold COLUMNS_TO_KEEP. set_solver. }
  split; [|done]. apply notna_all_length.
  repeat constructor; [| done | | |].
  - unfold date_col, to_datetime. rewrite length_map. apply Hlen.
    unfold COLUMNS_TO_KEEP. set_solver.
  - unfold long_col, to_numeric. rewrite length_map. apply Hlen.
    unfold COLUMNS_TO_KEEP. set_solver.
  - apply Hlen. unfold COLUMNS_TO_KEEP. set_solver.
  - unfold hour_col, to_datetime_HM. rewrite dt_hour_length, length_map.
    apply Hlen. unfold COLUMNS_TO_KEEP. set_solver.
Qed.

Lemma dropna_converted df :
  dropna (converted df) ["date"; "lat"; "long"; "age"; "hour"]
  = Ok (getitem_mask (converted df) (complete_mask df)).
Proof. done. Qed.

End Counting.

(** C6: the rows written, the rows removed for a missing critical field
    and the complete rows removed for latitude 0 add up to the rows read;
    projection, conversion and the final casts change no row count, and the
    number the script prints is the sum of the two kinds of removed rows. *)
Theorem row_accounting `{Runtime} df out :
  rectangular df = true →
  clean_frame df = Ok out →
  len out + n_incomplete df + n_zero_lat df = len df
  ∧ (∀ d1 d2 d3,
       select_and_convert df = Ok d1 →
       dropna d1 ["date"; "lat"; "long"; "age"; "hour"] = Ok d2 →
       drop_invalid d1 = Ok d3 →
       len d1 = len df
       ∧ len d2 + n_incomplete df = len d1
       ∧ len d3 + n_zero_lat df = len d2
       ∧ len d3 = len out
       ∧ len d1 - len d3 = n_incomplete df + n_zero_lat df).
Proof.
  intros Hrect Hout.
  pose proof (cleaned_index _ _ Hout) as Hidx.
  apply clean_frame_inv in Hout as (age & hour & _ & _ & _ & Hall).
  destruct (complete_mask_length df Hrect Hall) as [Hcm Hlat].
  pose proof (keep_accounting (complete_mask df) (lat_col df)) as Hacc.
  rewrite Hcm, Hlat in Hacc. specialize (Hacc eq_refl).
  fold (keep_mask df) in Hacc. fold (n_incomplete df) in Hacc.
  fold (n_zero_lat df) in Hacc.
  assert (len out = count_true (keep_mask df)) as Hlen.
  { unfold len at 1. rewrite Hidx. apply take_mask_length.
    unfold keep_mask. rewrite length_zip_with, Hcm, Hlat. unfold len. lia. }
  split; [lia|].
  intros d1 d2 d3 [-> _]%select_and_convert_inv.
  rewrite dropna_converted, drop_invalid_converted. intros [= <-] [= <-].
  assert (len (getitem_mask (converted df) (complete_mask df))
          = count_true (complete_mask df)) as Hd2.
  { unfold len, getitem_mask, converted. cbn [index]. apply take_mask_length. exact Hcm. }
  assert (len (getitem_mask (converted df) (keep_mask df))
          = count_true (keep_mask df)) as Hd3.
  { unfold len, getitem_mask, converted. cbn [index]. rewrite <- Hidx. apply Hlen. }
  pose proof (count_true_false (complete_mask df)) as Hcf.
  fold (n_incomplete df) in Hcf. rewrite Hcm in Hcf.
  rewrite Hd2, Hd3. change (len (converted df)) with (len df). lia.
Qed.

(** ** Running the script *)

Lemma list_ascii_app (a b : string) :
  list_ascii_of_string (a ++ b) = list_ascii_of_string a ++ list_ascii_of_string b.
Proof.
  induction a as [|c a IH]; [done|].
  change (String c a ++ b)%string with (String c (a ++ b)).
  cbn [list_ascii_of_string]. by rewrite IH.
Qed.

(** A path joined with a relative name ends with that name. *)
Lemma path_join_suffix (a b : string) :
  String.prefix "/" b = false → ∃ x, path_join a b = (x ++ b)%string.
Proof.
  intros Hb. unfold path_join. rewrite Hb.
  destruct (String.eqb a "" || ends_with_slash a).
  - by exists a.
  - exists (a ++ "/")%string. clear. induction a as [|c a IH]; [done|].
    change (String c a ++ "/" ++ b)%string with (String c (a ++ "/" ++ b)).
    change ((String c a ++ "/") ++ b)%string with (String c ((a ++ "/") ++ b)).
    by rewrite IH.
Qed.

Lemma fifth_from_end_app (x name : string) c :
  fifth_from_end name = Some c → fifth_from_end (x ++ name) = Some c.
Proof.
  unfold fifth_from_end. rewrite list_ascii_app, rev_app_distr.
  intros Hc. by apply lookup_app_l_Some.
Qed.

Lemma raw_path_not_cleaned_path `{Runtime} : RAW_DATA_PATH ≠ CLEANED_DATA_PATH.
Proof.
  unfold RAW_DATA_PATH, CLEANED_DATA_PATH.
  destruct (path_join_suffix (path_join (path_join BASE_DIR "data") "raw")
              "accidentsVelo-full.csv" eq_refl) as [x ->].
  destruct (path_join_suffix (path_join (path_join BASE_DIR "data") "cleaned")
              "accidents_cleaned.csv" eq_refl) as [y ->].
  intros Heq.
  pose proof (fifth_from_end_app x "accidentsVelo-full.csv" _ eq_refl) as Hx.
  pose proof (fifth_from_end_app y "accidents_cleaned.csv" _ eq_refl) as Hy.
  rewrite Heq, Hy in Hx. discriminate Hx.
Qed.

Lemma clean_data_missing `{Runtime} w :
  files w !! RAW_DATA_PATH = None →
  clean_data w
  = (mkWorld (files w) (dirs w)
       (stdout w ++
        [ ("Début du nettoyage... Lecture de " ++ RAW_DATA_PATH)%string;
          ("ERREUR: Fichier non trouvé à " ++ RAW_DATA_PATH)%string;
          "Veuillez d'abord placer 'accidentsVelo-full.csv' dans le dossier 'data/raw/'."
        ]), Ok tt).
Proof.
  intros Hraw. unfold clean_data, mbind, M_bind, try, read_csv, print. run.
  rewrite Hraw. run. by rewrite <- !app_assoc.
Qed.

(** C7: when the raw file does not exist, the run prints the not-found
    error with the path of the raw file, does nothing else, and writes no
    file: the files and directories are as before. *)
Theorem missing_input_reported `{Runtime} w :
  files w !! RAW_DATA_PATH = None →
  ∃ w', clean_data w = (w', Ok tt)
        ∧ files w' = files w
        ∧ dirs w' = dirs w
        ∧ files w' !! CLEANED_DATA_PATH = files w !! CLEANED_DATA_PATH
        ∧ stdout w'
          = (stdout w ++
             [ ("Début du nettoyage... Lecture de " ++ RAW_DATA_PATH)%string;
               ("ERREUR: Fichier non trouvé à " ++ RAW_DATA_PATH)%string;
               "Veuillez d'abord placer 'accidentsVelo-full.csv' dans le dossier 'data/raw/'."
             ]).
Proof.
  intros Hraw. rewrite (clean_data_missing w Hraw). eexists. by repeat split.
Qed.


(** What the script does to the files: nothing, or it writes the output
    file. *)
Lemma clean_data_files `{Runtime} w :
  files (clean_data w).1 = files w
  ∨ ∃ content, files (clean_data w).1 = <[CLEANED_DATA_PATH := content]> (files w).
Proof.
  unfold clean_data, mbind, M_bind, try, read_csv, print, lift, makedirs,
    to_csv_file. run.
  destruct (files w !! RAW_DATA_PATH) as [content|]; run; [|by left].
  destruct (parse_csv content) as [msg|df]; run; [by left|].
  destruct (select_and_convert df) as [d1|]; run; [|by left].
  destruct (drop_invalid d1) as [d2|]; run; [|by left].
  destruct (finalize_types d2) as [d3|]; run; [|by left].
  right. eauto.
Qed.

(** The table the script writes is the one [clean_frame] returns, and
    when [clean_frame] raises the script raises and writes nothing. *)
Lemma clean_data_writes `{Runtime} w content df :
  files w !! RAW_DATA_PATH = Some content → parse_csv content = inr df →
  match clean_frame df with
  | Ok out =>
      (clean_data w).2 = Ok tt
      ∧ files (clean_data w).1 = <[CLEANED_DATA_PATH := to_csv out]> (files w)
  | Raise e =>
      (clean_data w).2 = Raise e ∧ files (clean_data w).1 = files w
  end.
Proof.
  intros Hraw Hparse.
  unfold clean_frame, clean_data, mbind, M_bind, result_bind, try, read_csv,
    print, lift, makedirs, to_csv_file. run.
  rewrite Hraw. run. rewrite Hparse. run.
  destruct (select_and_convert df) as [d1|]; run; [|done].
  destruct (drop_invalid d1) as [d2|]; run; [|done].
  destruct (finalize_types d2) as [d3|]; run; done.
Qed.


(** ** The final casts *)

(** A kept row whose age cannot be cast makes the whole transformation
    raise. *)
Lemma uncastable_age_raises `{Runtime} df p a e :
  keep_mask df !! p = Some true → col df "age" !! p = Some a →
  astype_int_elem a = Raise e →
  ∃ e', clean_frame df = Raise e'.
Proof.
  intros Hk Ha Hcast. destruct (clean_frame df) as [out|e'] eqn:Hout; [|eauto].
  apply clean_frame_inv in Hout as (age & hour & Hage & _).
  destruct (traverse_lookup _ _ _ (rank (keep_mask df) p) a Hage)
    as (y & Hy & _); [by rewrite take_mask_lookup_eq|].
  congruence.
Qed.

(** C2 (the script breaks it): [age] is not converted before the filter,
    so a row with a text age passes [dropna] and both filters, and the cast
    of line 86 raises ValueError; the run ends there and writes no file.
    The cast of [hour] cannot fail ([hour_cast_total]). *)
Theorem age_text_cast_raises :
  col age_text_frame "age" = [Str "abc"]
  ∧ @keep_mask sample_runtime age_text_frame = [true]
  ∧ @clean_frame sample_runtime age_text_frame
    = Raise (ValueError "invalid literal for int() with base 10")
  ∧ snd (@clean_data sample_runtime age_text_world)
    = Raise (ValueError "invalid literal for int() with base 10")
  ∧ (files (fst (@clean_data sample_runtime age_text_world))
     !! @CLEANED_DATA_PATH sample_runtime) = None.
Proof. repeat split; by vm_compute. Qed.

(** C1 (the script breaks it): row 0 of the table below has a readable
    date, a numeric latitude other than 0, a numeric longitude, the
    whole-number age 34 and the time 14:30, and row 1 has the text age
    [abc].  Age is never converted, so both rows pass the two filters, the
    cast of line 86 raises ValueError on row 1, and the run ends there
    without writing a file: the valid row 0 is in no output. *)
Theorem valid_row_lost_when_cast_fails :
  index mixed_age_frame !! 0 = Some 0
  ∧ col mixed_age_frame "date" !! 0 = Some (Str "2021-05-01")
  ∧ @parse_datetime sample_runtime (col mixed_age_frame "date") (Str "2021-05-01")
    = Some 1619827200000000000%Z
  ∧ (∃ la, col mixed_age_frame "lat" !! 0 = Some la
           ∧ notna (@to_numeric_elem sample_runtime la) = true
           ∧ ne_zero (@to_numeric_elem sample_runtime la) = true)
  ∧ (∃ lo, col mixed_age_frame "long" !! 0 = Some lo
           ∧ notna (@to_numeric_elem sample_runtime lo) = true)
  ∧ col mixed_age_frame "age" = [Str "34"; Str "abc"]
  ∧ @is_integral sample_runtime (Str "34") = true
  ∧ col mixed_age_frame "hrmn" !! 0 = Some (Str "14:30")
  ∧ strptime_HM "14:30" = Some (14, 30)%Z
  ∧ @keep_mask sample_runtime mixed_age_frame = [true; true]
  ∧ @clean_frame sample_runtime mixed_age_frame
    = Raise (ValueError "invalid literal for int() with base 10")
  ∧ snd (@clean_data sample_runtime mixed_age_world)
    = Raise (ValueError "invalid literal for int() with base 10")
  ∧ (files (fst (@clean_data sample_runtime mixed_age_world))
     !! @CLEANED_DATA_PATH sample_runtime) = None.
Proof.
  split; [reflexivity|]. split; [reflexivity|].
  split; [vm_compute; reflexivity|].
  split.
  { eexists. split; [reflexivity|]. split; vm_compute; reflexivity. }
  split.
  { eexists. split; [reflexivity|]. vm_compute; reflexivity. }
  repeat (split; [vm_compute; reflexivity|]). vm_compute; reflexivity.
Qed.

(** ** The properties on the example table *)

Lemma valid_row_is_kept_witness :
  @clean_frame sample_runtime sample_frame = Ok sample_out
  ∧ ∃ q, index sample_out !! q = Some 0
         ∧ col sample_out "hour" !! q = Some (Int 14)
         ∧ lookup_col "hrmn" (columns sample_out) = None
         ∧ ∀ c, c ∈ ["Num_Acc"; "grav"; "sexe"; "atm"; "lum"; "dep"] →
                col sample_out c !! q = col sample_frame c !! 0.
Proof.
  split; [reflexivity|].
  eapply (@valid_row_is_kept sample_runtime sample_frame sample_out 0 0);
    reflexivity.
Defined.


Lemma zero_latitude_row_is_dropped_witness :
  (1 ∉ index sample_out) ∧ (3 ∈ index sample_out).
Proof.
  split.
  - eapply (@zero_latitude_row_is_dropped sample_runtime sample_frame sample_out 1 1);
      try reflexivity.
    apply (bool_decide_unpack _). reflexivity.
  - eapply (@zero_latitude_row_is_dropped sample_runtime sample_frame sample_out 3 3);
      try reflexivity.
    apply (bool_decide_unpack _). reflexivity.
Defined.

Lemma output_columns_witness :
  map fst (columns sample_out)
  = ["Num_Acc"; "date"; "lat"; "long"; "age"; "grav"; "sexe"; "atm"; "lum";
     "dep"; "hour"]
  ∧ "hrmn" ∉ map fst (columns sample_out).
Proof. apply (@output_columns sample_runtime sample_frame). reflexivity. Defined.

Lemma row_accounting_witness :
  rectangular sample_frame = true
  ∧ len sample_out = 3
  ∧ @n_incomplete sample_runtime sample_frame = 2
  ∧ @n_zero_lat sample_runtime sample_frame = 1
  ∧ len sample_out + @n_incomplete sample_runtime sample_frame
    + @n_zero_lat sample_runtime sample_frame = len sample_frame.
Proof.
  repeat (split; [reflexivity|]).
  apply (@row_accounting sample_runtime sample_frame sample_out); reflexivity.
Defined.

Lemma missing_input_reported_witness :
  ∃ w', @clean_data sample_runtime empty_world = (w', Ok tt)
        ∧ files w' = files empty_world
        ∧ dirs w' = dirs empty_world
        ∧ files w' !! @CLEANED_DATA_PATH sample_runtime
          = files empty_world !! @CLEANED_DATA_PATH sample_runtime
        ∧ stdout w'
          = stdout empty_world ++
            [ ("Début du nettoyage... Lecture de " ++ @RAW_DATA_PATH sample_runtime)%string;
              ("ERREUR: Fichier non trouvé à " ++ @RAW_DATA_PATH sample_runtime)%string;
              "Veuillez d'abord placer 'accidentsVelo-full.csv' dans le dossier 'data/raw/'."
            ].
Proof. apply (@missing_input_reported sample_runtime empty_world). reflexivity. Defined.


Lemma hour_in_range_witness :
  ∃ h, col sample_out "hour" !! 1 = Some (Int h) ∧ (0 ≤ h ≤ 23)%Z.
Proof.
  apply (@hour_in_range sample_runtime sample_frame sample_out 1 3); reflexivity.
Defined.

Lemma row_order_preserved_witness :
  index sample_out = [0; 3; 5]
  ∧ index sample_out = take_mask (@keep_mask sample_runtime sample_frame) (index sample_frame)
  ∧ index sample_out `sublist_of` index sample_frame.
Proof.
  split; [reflexivity|].
  destruct (@row_order_preserved sample_runtime sample_frame sample_out eq_refl)
    as (Hidx & Hsub & _).
  split; assumption.
Defined.

(** * Further properties of the script *)

(** ** Exceptions of the table transformation *)

Lemma traverse_raise {A B : Type} (f : A → result B) l e :
  traverse f l = Raise e → ∃ p x, l !! p = Some x ∧ f x = Raise e.
Proof.
  induction l as [|a l IH]; cbn; [done|].
  destruct (f a) as [b|e'] eqn:Hfa.
  - destruct (traverse f l) as [bs|e'] eqn:Hl; [done|].
    intros [= ->]. destruct (IH eq_refl) as (p & x & ? & ?).
    exists (S p), x. done.
  - intros [= ->]. exists 0, a. done.
Qed.

Lemma traverse_app_raise {A B : Type} (f : A → result B) l1 x l2 e :
  (∀ y, y ∈ l1 → ∃ b, f y = Ok b) → f x = Raise e →
  traverse f (l1 ++ x :: l2) = Raise e.
Proof.
  intros Hl1 Hx. induction l1 as [|a l1 IH]; cbn.
  - by rewrite Hx.
  - destruct (Hl1 a) as [b ->]; [left|].
    rewrite IH; [done|]. intros y Hy. apply Hl1. by right.
Qed.

Lemma astype_int_elem_range `{Runtime} a y :
  astype_int_elem a = Ok y → ∃ z, y = Int z ∧ (int64_min ≤ z ≤ int64_max)%Z.
Proof.
  destruct a as [|z|f|s|ns]; cbn; try done.
  - apply int_to_int64_range.
  - destruct (float_trunc f) as [t|]; [|done].
    destruct ((int64_min <=? t)%Z && (t <=? int64_max)%Z) eqn:Hb;
      intros [= <-]; eexists; (split; [done|]).
    + apply andb_prop in Hb as [?%Z.leb_le ?%Z.leb_le]. lia.
    + unfold int64_min, int64_max. lia.
  - destruct (python_int s) as [t|]; [|done].
    destruct ((int64_min <=? t)%Z && (t <=? int64_max)%Z) eqn:Hb; [|done].
    intros [= <-]. eexists. split; [done|].
    apply andb_prop in Hb as [?%Z.leb_le ?%Z.leb_le]. lia.
  - apply int_to_int64_range.
Qed.

Lemma astype_int_elem_Int `{Runtime} a y : astype_int_elem a = Ok y → ∃ z, y = Int z.
Proof. intros (z & -> & _)%astype_int_elem_range. eauto. Qed.

Lemma absent_labels_sublist df cs : absent_labels df cs `sublist_of` cs.
Proof.
  unfold absent_labels. induction cs as [|c cs IH]; cbn; [done|].
  destruct (lookup_col c (columns df)); [by apply sublist_cons|by apply sublist_skip].
Qed.

Section Failures.
Context `{Runtime}.

Lemma getitem_cols_raise df cs e :
  getitem_cols df cs = Raise e →
  absent_labels df cs ≠ [] ∧ e = KeyError (label_list (absent_labels df cs)).
Proof.
  unfold getitem_cols. destruct (absent_labels df cs) as [|c l] eqn:Habs.
  - destruct (traverse _ cs) as [cols|e'] eqn:Hcols; [done|].
    apply traverse_raise in Hcols as (p & c & Hp & Hc).
    assert (is_Some (lookup_col c (columns df))) as [x Hx].
    { apply (proj1 (absent_labels_nil df cs) Habs).
      by eapply list_elem_of_lookup_2. }
    unfold getitem in Hc. by rewrite Hx in Hc.
  - by intros [= <-].
Qed.

Lemma getitem_cols_missing df cs :
  absent_labels df cs ≠ [] →
  getitem_cols df cs = Raise (KeyError (label_list (absent_labels df cs))).
Proof.
  intros Habs. unfold getitem_cols. by destruct (absent_labels df cs).
Qed.

Lemma select_and_convert_raise df e :
  select_and_convert df = Raise e → getitem_cols df COLUMNS_TO_KEEP = Raise e.
Proof.
  intros Hsel. destruct (getitem_cols df COLUMNS_TO_KEEP) as [d0|e0] eqn:Hcols.
  - apply getitem_cols_inv in Hcols as [_ Hall].
    by rewrite (select_and_convert_total _ Hall) in Hsel.
  - unfold select_and_convert in Hsel. by rewrite Hcols in Hsel.
Qed.

(** When the casts raise, the exception is that of the cast of an age on a
    kept row. *)
Lemma finalize_types_raise df e :
  finalize_types (getitem_mask (converted df) (keep_mask df)) = Raise e →
  ∃ p a, keep_mask df !! p = Some true ∧ col df "age" !! p = Some a
         ∧ astype_int_elem a = Raise e.
Proof.
  rewrite finalize_types_filtered.
  destruct (astype_int (take_mask (keep_mask df) (col df "age")))
    as [age|e1] eqn:Hage.
  - rewrite bind_Ok. destruct (hour_cast_total df) as [hour ->]. done.
  - intros [= ->].
    apply traverse_raise in Hage as (q & a & Hq & Ha).
    apply take_mask_lookup_inv in Hq as (p & Hk & Hp & _). eauto.
Qed.

End Failures.

(** X1: when the table read lacks columns of [COLUMNS_TO_KEEP], the
    projection of line 54 raises one KeyError that names every absent
    column and no other, in the order of the list. *)
Theorem missing_column_raises `{Runtime} df :
  absent_labels df COLUMNS_TO_KEEP ≠ [] →
  clean_frame df
  = Raise (KeyError (label_list (absent_labels df COLUMNS_TO_KEEP)))
  ∧ (∀ c, c ∈ absent_labels df COLUMNS_TO_KEEP
          ↔ c ∈ COLUMNS_TO_KEEP ∧ lookup_col c (columns df) = None)
  ∧ absent_labels df COLUMNS_TO_KEEP `sublist_of` COLUMNS_TO_KEEP.
Proof.
  intros Habs. split; [|split].
  - unfold clean_frame, select_and_convert.
    by rewrite (getitem_cols_missing df _ Habs).
  - intros c. apply absent_labels_elem.
  - apply absent_labels_sublist.
Qed.

Lemma missing_column_raises_witness :
  absent_labels (without_column "hrmn" (without_column "age" sample_frame))
    COLUMNS_TO_KEEP = ["age"; "hrmn"]
  ∧ @clean_frame sample_runtime
      (without_column "hrmn" (without_column "age" sample_frame))
    = Raise (KeyError "age, hrmn").
Proof.
  split; [reflexivity|].
  apply (@missing_column_raises sample_runtime
           (without_column "hrmn" (without_column "age" sample_frame))).
  discriminate.
Defined.

(** X2: the table transformation raises only in two ways: one KeyError
    naming the columns of [COLUMNS_TO_KEEP] that the table lacks, or the
    exception of the cast of an age on a row that passed both filters.
    The filters and the cast of [hour] never raise. *)
Theorem clean_frame_raises_only `{Runtime} df e :
  clean_frame df = Raise e →
  (absent_labels df COLUMNS_TO_KEEP ≠ []
   ∧ e = KeyError (label_list (absent_labels df COLUMNS_TO_KEEP)))
  ∨ (absent_labels df COLUMNS_TO_KEEP = []
     ∧ ∃ p a, keep_mask df !! p = Some true ∧ col df "age" !! p = Some a
              ∧ astype_int_elem a = Raise e).
Proof.
  unfold clean_frame.
  destruct (select_and_convert df) as [d|e0] eqn:Hsel.
  - apply select_and_convert_inv in Hsel as [-> Hall].
    rewrite bind_Ok, drop_invalid_converted, bind_Ok.
    intros Hfin. right. split; [by apply absent_labels_nil|].
    by apply finalize_types_raise.
  - intros [= ->]. left.
    by apply getitem_cols_raise, select_and_convert_raise.
Qed.

Lemma clean_frame_raises_only_witness :
  ∃ p a, @keep_mask sample_runtime age_text_frame !! p = Some true
         ∧ col age_text_frame "age" !! p = Some a
         ∧ @astype_int_elem sample_runtime a
           = Raise (ValueError "invalid literal for int() with base 10").
Proof.
  destruct (@clean_frame_raises_only sample_runtime age_text_frame
              (ValueError "invalid literal for int() with base 10") eq_refl)
    as [[Habs _]|[_ Hage]]; [by exfalso; apply Habs|exact Hage].
Defined.

(** X3: the table transformation returns a table exactly when the eleven
    columns exist and the age of every row that passes both filters can be
    cast to an integer. *)
Theorem clean_frame_succeeds_iff `{Runtime} df :
  (∃ out, clean_frame df = Ok out) ↔
  (∀ c, c ∈ COLUMNS_TO_KEEP → is_Some (lookup_col c (columns df)))
  ∧ (∀ p a, keep_mask df !! p = Some true → col df "age" !! p = Some a →
            ∃ z, astype_int_elem a = Ok (Int z)).
Proof.
  split.
  - intros [out (age & hour & Hage & _ & _ & Hall)%clean_frame_inv].
    split; [done|]. intros p a Hk Ha.
    destruct (traverse_lookup _ _ _ (rank (keep_mask df) p) a Hage)
      as (y & Hy & _); [by rewrite take_mask_lookup_eq|].
    destruct (astype_int_elem_Int _ _ Hy) as [z ->]. eauto.
  - intros [Hall Hage]. by apply clean_frame_total.
Qed.

(** X4: the transformation reads the index and the eleven columns only:
    two tables that agree on them give the same result, whatever other
    columns they have and in whatever order the columns stand. *)
Theorem other_columns_ignored `{Runtime} df1 df2 :
  index df1 = index df2 →
  (∀ c, c ∈ COLUMNS_TO_KEEP →
        lookup_col c (columns df1) = lookup_col c (columns df2)) →
  clean_frame df1 = clean_frame df2.
Proof.
  intros Hidx Hcols.
  assert (getitem_cols df1 COLUMNS_TO_KEEP = getitem_cols df2 COLUMNS_TO_KEEP)
    as Hsel.
  { unfold getitem_cols. rewrite Hidx.
    assert (absent_labels df1 COLUMNS_TO_KEEP = absent_labels df2 COLUMNS_TO_KEEP)
      as ->.
    { unfold absent_labels. revert Hcols. generalize COLUMNS_TO_KEEP as cs.
      induction cs as [|c cs IH]; intros Hcols; cbn; [done|].
      rewrite (Hcols c) by left.
      rewrite IH; [done|]. intros c' Hc'. apply Hcols. by right. }
    assert (traverse (λ c, s ← getitem df1 c; Ok (c, s)) COLUMNS_TO_KEEP
            = traverse (λ c, s ← getitem df2 c; Ok (c, s)) COLUMNS_TO_KEEP)
      as ->; [|done].
    revert Hcols. generalize COLUMNS_TO_KEEP as cs.
    induction cs as [|c cs IH]; intros Hcols; cbn; [done|].
    unfold getitem at 1 3. rewrite (Hcols c) by left.
    rewrite IH; [done|]. intros c' Hc'. apply Hcols. by right. }
  unfold clean_frame, select_and_convert. by rewrite Hsel.
Qed.

Lemma other_columns_ignored_witness :
  @clean_frame sample_runtime (without_column "com" sample_frame)
  = @clean_frame sample_runtime sample_frame.
Proof.
  apply (@other_columns_ignored sample_runtime); [reflexivity|].
  intros c Hc.
  repeat (apply elem_of_cons in Hc as [->|Hc]; [reflexivity|]).
  by apply not_elem_of_nil in Hc.
Defined.

(** X5: the table written has no column [hrmn], so the transformation
    cannot be applied to its own output: it raises KeyError for [hrmn]. *)
Theorem cleaned_table_cannot_be_cleaned_again `{Runtime} df out :
  clean_frame df = Ok out → clean_frame out = Raise (KeyError "hrmn").
Proof.
  intros (age & hour & _ & _ & -> & _)%clean_frame_inv.
  unfold clean_frame, select_and_convert.
  by rewrite getitem_cols_missing.
Qed.

Lemma cleaned_table_cannot_be_cleaned_again_witness :
  @clean_frame sample_runtime sample_out = Raise (KeyError "hrmn").
Proof.
  apply (@cleaned_table_cannot_be_cleaned_again sample_runtime sample_frame).
  reflexivity.
Defined.

(** ** The rows of the output *)

Lemma to_numeric_elem_number `{Runtime} c :
  notna (to_numeric_elem c) = true → is_number (to_numeric_elem c) = true.
Proof.
  destruct c as [|z|f|s|ns]; cbn; try done.
  destruct (str_to_float s); done.
Qed.

(** X6: in every row of the output, [date] is a timestamp, [lat] is a
    number other than 0, [long] is a number and [age] is an integer. *)
Theorem output_row_invariants `{Runtime} df out q i :
  clean_frame df = Ok out →
  index out !! q = Some i →
  (∃ ns, col out "date" !! q = Some (Timestamp ns))
  ∧ (∃ c, col out "lat" !! q = Some c ∧ is_number c = true ∧ ne_zero c = true)
  ∧ (∃ c, col out "long" !! q = Some c ∧ is_number c = true)
  ∧ (∃ z, col out "age" !! q = Some (Int z)).
Proof.
  intros Hout Hq. rewrite (cleaned_index _ _ Hout) in Hq.
  apply take_mask_lookup_inv in Hq as (p & Hk & _ & <-).
  apply clean_frame_inv in Hout as (age & hour & Hage & _ & -> & _).
  pose proof Hk as (_ & (d & Hd & Hdn) & (la & Hla & Hlan & Hlaz)
                    & (lo & Hlo & Hlon) & (a & Ha & Han) & _)%keep_mask_lookup.
  split; [|split; [|split]].
  - change (col (cleaned df age hour) "date")
      with (take_mask (keep_mask df) (date_col df)).
    rewrite take_mask_lookup_eq by done.
    rewrite date_col_lookup in Hd |- *.
    destruct (col df "date" !! p) as [c|]; [|done]. cbn in *.
    injection Hd as <-. destruct (isna c); [done|].
    destruct (parse_datetime (col df "date") c); [eauto|done].
  - change (col (cleaned df age hour) "lat")
      with (take_mask (keep_mask df) (lat_col df)).
    rewrite take_mask_lookup_eq by done. exists la. split; [done|].
    split; [|done]. rewrite lat_col_lookup in Hla.
    destruct (col df "lat" !! p) as [c|]; [|done]. injection Hla as <-.
    by apply to_numeric_elem_number.
  - change (col (cleaned df age hour) "long")
      with (take_mask (keep_mask df) (long_col df)).
    rewrite take_mask_lookup_eq by done. exists lo. split; [done|].
    rewrite long_col_lookup in Hlo.
    destruct (col df "long" !! p) as [c|]; [|done]. injection Hlo as <-.
    by apply to_numeric_elem_number.
  - change (col (cleaned df age hour) "age") with age.
    destruct (traverse_lookup _ _ _ (rank (keep_mask df) p) a Hage)
      as (y & Hy & ->); [by rewrite take_mask_lookup_eq|].
    destruct (astype_int_elem_Int _ _ Hy) as [z ->]. eauto.
Qed.

Lemma output_row_invariants_witness :
  (∃ ns, col sample_out "date" !! 1 = Some (Timestamp ns))
  ∧ (∃ c, col sample_out "lat" !! 1 = Some c ∧ is_number c = true
          ∧ ne_zero c = true)
  ∧ (∃ c, col sample_out "long" !! 1 = Some c ∧ is_number c = true)
  ∧ (∃ z, col sample_out "age" !! 1 = Some (Int z)).
Proof.
  apply (@output_row_invariants sample_runtime sample_frame sample_out 1 3);
    reflexivity.
Defined.

(** X7: the age written for a kept row is the cast of the age read, always
    within [int64]: the integer itself when it fits [int64], a [uint64]
    value above that wrapped around, a finite double truncated toward zero,
    or the value of Python's [int()] on the text. *)
Theorem output_age_is_cast_of_input `{Runtime} df out p a :
  clean_frame df = Ok out →
  keep_mask df !! p = Some true →
  col df "age" !! p = Some a →
  ∃ z, astype_int_elem a = Ok (Int z)
       ∧ col out "age" !! rank (keep_mask df) p = Some (Int z)
       ∧ (int64_min ≤ z ≤ int64_max)%Z
       ∧ (∀ n, a = Int n → (int64_min ≤ n ≤ int64_max)%Z → z = n)
       ∧ (∀ n, a = Int n → (int64_max < n < 2 ^ 64)%Z → z = (n - 2 ^ 64)%Z)
       ∧ (∀ f t, a = Float f → float_trunc f = Some t →
                 (int64_min ≤ t ≤ int64_max)%Z → z = t)
       ∧ (∀ s, a = Str s → python_int s = Some z).
Proof.
  intros (age & hour & Hage & _ & -> & _)%clean_frame_inv Hk Ha.
  change (col (cleaned df age hour) "age") with age.
  destruct (traverse_lookup _ _ _ (rank (keep_mask df) p) a Hage)
    as (y & Hy & ->); [by rewrite take_mask_lookup_eq|].
  destruct (astype_int_elem_range _ _ Hy) as (z & -> & Hz).
  exists z. split; [done|]. split; [done|]. split; [done|].
  split; [|split; [|split]].
  - intros n -> Hn. cbn in Hy. rewrite int_to_int64_in_range in Hy by done.
    by injection Hy.
  - intros n -> Hn. cbn in Hy. unfold int_to_int64, in_int64 in Hy.
    unfold int64_min, int64_max in *.
    destruct (Z.leb_spec (- 2 ^ 63) n), (Z.leb_spec n (2 ^ 63 - 1)); try lia.
    cbn in Hy.
    destruct (Z.leb_spec 0 n), (Z.ltb_spec n (2 ^ 64)); try lia.
    cbn in Hy. by injection Hy.
  - intros f t -> Ht Hrange. cbn in Hy. rewrite Ht in Hy.
    assert ((int64_min <=? t)%Z && (t <=? int64_max)%Z = true) as Hb.
    { apply andb_true_intro. split; apply Z.leb_le; lia. }
    rewrite Hb in Hy. by injection Hy.
  - intros s ->. cbn in Hy. destruct (python_int s) as [n|]; [|done].
    case_match; [|done]. by injection Hy as ->.
Qed.

Lemma output_age_is_cast_of_input_witness :
  ∃ z, col sample_out "age" !! 1 = Some (Int z) ∧ z = 19%Z.
Proof.
  destruct (@output_age_is_cast_of_input sample_runtime sample_frame sample_out
              3 (Float (float_of_Z 19)) eq_refl eq_refl eq_refl)
    as (z & _ & Hz & _ & _ & _ & Hf & _).
  exists z. split; [exact Hz|].
  apply (Hf (float_of_Z 19)); [reflexivity|reflexivity|by vm_compute].
Defined.

(** ** Well-formed tables *)

Lemma take_mask_length_eq {A B : Type} (mask : list bool) (l : list A) (k : list B) :
  length l = length k → length (take_mask mask l) = length (take_mask mask k).
Proof.
  revert l k. induction mask as [|b mask IH]; intros [|x l] [|y k]; try done.
  intros [= Hlen]. cbn. destruct b; cbn; auto.
Qed.

Lemma cleaned_rectangular `{Runtime} df out :
  rectangular df = true → clean_frame df = Ok out → rectangular out = true.
Proof.
  intros Hrect Hout.
  apply clean_frame_inv in Hout as (age & hour & Hage & Hhour & -> & Hall).
  assert (∀ c, c ∈ COLUMNS_TO_KEEP → length (col df c) = length (index df))
    as Hlen.
  { intros c Hc. destruct (Hall c Hc) as [s Hs]. unfold col. rewrite Hs.
    by eapply rectangular_col. }
  apply traverse_length in Hage, Hhour.
  unfold rectangular, cleaned, len.
  cbn [columns index forallb snd].
  rewrite Hage, Hhour.
  unfold date_col, lat_col, long_col, hour_col, to_datetime, to_numeric,
    to_datetime_HM.
  repeat match goal with
         | |- context [(length (take_mask ?m ?l) =? length (take_mask ?m ?k))%nat] =>
             rewrite (take_mask_length_eq m l k);
             [rewrite Nat.eqb_refl
             |rewrite ?dt_hour_length, ?length_map; apply Hlen;
              unfold COLUMNS_TO_KEEP; set_solver]
         end.
  done.
Qed.

(** X8: when every column of the input is as long as its index and the
    row labels are distinct, the same holds for the output. *)
Theorem output_well_formed `{Runtime} df out :
  rectangular df = true →
  NoDup (index df) →
  clean_frame df = Ok out →
  rectangular out = true ∧ NoDup (index out).
Proof.
  intros Hrect Hnd Hout. split; [by eapply cleaned_rectangular|].
  rewrite (cleaned_index _ _ Hout).
  eapply sublist_NoDup; [done|]. apply take_mask_sublist.
Qed.

Lemma output_well_formed_witness :
  rectangular sample_out = true ∧ NoDup (index sample_out).
Proof.
  apply (@output_well_formed sample_runtime sample_frame).
  - reflexivity.
  - apply (bool_decide_unpack _). reflexivity.
  - reflexivity.
Defined.

(** ** Applying the filters and the casts again *)

Lemma take_mask_all_true {A : Type} (l : list A) :
  take_mask (replicate (length l) true) l = l.
Proof. induction l as [|x l IH]; cbn; [done|]. by rewrite IH. Qed.

Lemma map_all_true {A : Type} (f : A → bool) (l : list A) :
  Forall (λ x, f x = true) l → map f l = replicate (length l) true.
Proof. induction 1 as [|x l Hx _ IH]; cbn; [done|]. by rewrite Hx, IH. Qed.

Lemma zip_with_andb_true n :
  zip_with andb (replicate n true) (replicate n true) = replicate n true.
Proof. induction n as [|n IH]; cbn; [done|]. by rewrite IH. Qed.

Lemma notna_all_true n (cols : list Series) :
  Forall (λ s, length s = n ∧ Forall (λ c, notna c = true) s) cols →
  notna_all n cols = replicate n true.
Proof.
  induction 1 as [|s cols [Hlen Hs] _ IH]; cbn; [done|].
  fold (notna_all n cols). rewrite IH, (map_all_true _ _ Hs), Hlen.
  apply zip_with_andb_true.
Qed.

Lemma getitem_mask_all_true df :
  rectangular df = true → getitem_mask df (replicate (len df) true) = df.
Proof.
  destruct df as [idx cols]. unfold rectangular, getitem_mask, len. cbn.
  intros Hrect. rewrite take_mask_all_true. f_equal.
  induction cols as [|[k s] cols IH]; cbn in *; [done|].
  apply andb_prop in Hrect as [Hs%Nat.eqb_eq Hcols].
  rewrite IH by done. by rewrite <- Hs, take_mask_all_true.
Qed.

Lemma astype_int_again `{Runtime} l l' :
  astype_int l = Ok l' → astype_int l' = Ok l'.
Proof.
  unfold astype_int. revert l'. induction l as [|a l IH]; intros l'; cbn.
  - by intros [= <-].
  - destruct (astype_int_elem a) as [y|] eqn:Hy; [|done].
    destruct (traverse astype_int_elem l) as [ys|]; [|done].
    intros [= <-]. destruct (astype_int_elem_range _ _ Hy) as (z & -> & Hz).
    cbn. rewrite (int_to_int64_in_range z Hz). by rewrite (IH ys eq_refl).
Qed.

Lemma astype_int_notna `{Runtime} l l' :
  astype_int l = Ok l' → Forall (λ c, notna c = true) l'.
Proof.
  intros Hl. apply Forall_forall. intros y Hy.
  destruct (traverse_elem_of _ _ _ _ Hl Hy) as (x & _ & Hx).
  by destruct (astype_int_elem_Int _ _ Hx) as [z ->].
Qed.

Section Again.
Context `{Runtime}.

(** The cells of a converted column on the rows kept. *)
Lemma kept_cells df (P : cell → Prop) (column : Series) :
  (∀ p c, keep_mask df !! p = Some true → column !! p = Some c → P c) →
  Forall P (take_mask (keep_mask df) column).
Proof.
  intros HP. apply Forall_forall. intros c (p & Hk & Hp)%take_mask_elem_of.
  eauto.
Qed.

Lemma kept_date_notna df :
  Forall (λ c, notna c = true) (take_mask (keep_mask df) (date_col df)).
Proof.
  apply kept_cells. intros p c (_ & (c' & Hc' & ?) & _)%keep_mask_lookup Hc.
  congruence.
Qed.

Lemma kept_lat_notna df :
  Forall (λ c, notna c = true) (take_mask (keep_mask df) (lat_col df)).
Proof.
  apply kept_cells.
  intros p c (_ & _ & (c' & Hc' & ? & _) & _)%keep_mask_lookup Hc. congruence.
Qed.

Lemma kept_lat_ne_zero df :
  Forall (λ c, ne_zero c = true) (take_mask (keep_mask df) (lat_col df)).
Proof.
  apply kept_cells.
  intros p c (_ & _ & (c' & Hc' & _ & ?) & _)%keep_mask_lookup Hc. congruence.
Qed.

Lemma kept_long_notna df :
  Forall (λ c, notna c = true) (take_mask (keep_mask df) (long_col df)).
Proof.
  apply kept_cells.
  intros p c (_ & _ & _ & (c' & Hc' & ?) & _)%keep_mask_lookup Hc. congruence.
Qed.

End Again.

(** X9: on a table the script has cleaned, the two filters and the two
    casts change nothing: every row is complete, no latitude is 0, and
    [age] and [hour] are integers already. *)
Theorem filters_and_casts_idempotent `{Runtime} df out :
  rectangular df = true →
  clean_frame df = Ok out →
  drop_invalid out = Ok out ∧ finalize_types out = Ok out.
Proof.
  intros Hrect Hout.
  pose proof (cleaned_rectangular df out Hrect Hout) as Hrout.
  apply clean_frame_inv in Hout as (age & hour & Hage & Hhour & -> & Hall).
  split.
  - pose proof Hrout as Hlens. unfold rectangular, cleaned in Hlens.
    cbn [columns forallb snd] in Hlens.
    repeat (apply andb_prop in Hlens as [?%Nat.eqb_eq Hlens]).
    unfold drop_invalid, dropna.
    assert (absent_labels (cleaned df age hour)
              ["date"; "lat"; "long"; "age"; "hour"] = []) as -> by done.
    assert (traverse (getitem (cleaned df age hour))
              ["date"; "lat"; "long"; "age"; "hour"]
            = Ok [take_mask (keep_mask df) (date_col df);
                  take_mask (keep_mask df) (lat_col df);
                  take_mask (keep_mask df) (long_col df); age; hour])
      as -> by done.
    rewrite bind_Ok, notna_all_true.
    + rewrite (getitem_mask_all_true _ Hrout), bind_Ok.
      assert (getitem (cleaned df age hour) "lat"
              = Ok (take_mask (keep_mask df) (lat_col df))) as -> by done.
      rewrite bind_Ok, (map_all_true _ _ (kept_lat_ne_zero df)).
      replace (length (take_mask (keep_mask df) (lat_col df)))
        with (len (cleaned df age hour)) by done.
      by rewrite (getitem_mask_all_true _ Hrout).
    + repeat constructor; try done.
      * apply kept_date_notna.
      * apply kept_lat_notna.
      * apply kept_long_notna.
      * by eapply astype_int_notna.
      * by eapply astype_int_notna.
  - unfold finalize_types.
    assert (getitem (cleaned df age hour) "age" = Ok age) as -> by done.
    rewrite bind_Ok, (astype_int_again _ _ Hage), bind_Ok.
    assert (getitem (setitem (cleaned df age hour) "age" age) "hour" = Ok hour)
      as -> by done.
    rewrite bind_Ok, (astype_int_again _ _ Hhour), bind_Ok. done.
Qed.

Lemma filters_and_casts_idempotent_witness :
  @drop_invalid sample_out = Ok sample_out
  ∧ @finalize_types sample_runtime sample_out = Ok sample_out.
Proof.
  apply (@filters_and_casts_idempotent sample_runtime sample_frame); reflexivity.
Defined.

(** ** Tables without rows *)

(** X10: a table with the eleven columns and no row is cleaned into a
    table with the eleven output columns and no row. *)
Theorem empty_table_is_cleaned `{Runtime} df :
  rectangular df = true →
  index df = [] →
  (∀ c, c ∈ COLUMNS_TO_KEEP → is_Some (lookup_col c (columns df))) →
  clean_frame df
  = Ok (mkFrame []
          [ ("Num_Acc", []); ("date", []); ("lat", []); ("long", []);
            ("age", []); ("grav", []); ("sexe", []); ("atm", []); ("lum", []);
            ("dep", []); ("hour", []) ]).
Proof.
  intros Hrect Hidx Hall.
  assert (∀ c, c ∈ COLUMNS_TO_KEEP → col df c = []) as Hnil.
  { intros c Hc. destruct (Hall c Hc) as [s Hs]. unfold col. rewrite Hs. cbn.
    apply nil_length_inv. rewrite (rectangular_col df c s Hrect Hs).
    unfold len. by rewrite Hidx. }
  unfold clean_frame.
  rewrite (select_and_convert_total _ Hall), bind_Ok, drop_invalid_converted,
    bind_Ok, finalize_types_filtered.
  unfold cleaned, hour_col, date_col, lat_col, long_col.
  rewrite Hidx.
  rewrite !Hnil by (unfold COLUMNS_TO_KEEP; set_solver).
  cbn. by rewrite !take_mask_nil_r.
Qed.

Lemma empty_table_is_cleaned_witness :
  @clean_frame sample_runtime
    (mkFrame [] (map (λ c, (c, [])) ("com" :: COLUMNS_TO_KEEP)))
  = Ok (mkFrame []
          [ ("Num_Acc", []); ("date", []); ("lat", []); ("long", []);
            ("age", []); ("grav", []); ("sexe", []); ("atm", []); ("lum", []);
            ("dep", []); ("hour", []) ]).
Proof.
  apply (@empty_table_is_cleaned sample_runtime); [reflexivity..|].
  intros c Hc.
  repeat (apply elem_of_cons in Hc as [->|Hc]; [by eexists|]).
  by apply not_elem_of_nil in Hc.
Defined.

(** ** Times of day *)

Lemma hhmm_parse_table :
  forallb (λ h, forallb (hhmm_parse_ok h) (seq 0 100)) (seq 0 100) = true.
Proof. by vm_compute. Qed.

Lemma hhmm_parse_ok_all (h m : nat) :
  (h < 100)%nat → (m < 100)%nat → hhmm_parse_ok h m = true.
Proof.
  intros Hh Hm. pose proof hhmm_parse_table as Htab.
  rewrite forallb_forall in Htab.
  specialize (Htab h). rewrite forallb_forall in Htab.
  apply Htab; apply in_seq; lia.
Qed.

(** X11: on the two-digit text [HH:MM] the format [%H:%M] of line 68
    accepts exactly the hours 00 to 23 with the minutes 00 to 59 and reads
    them back; a row with such a time gets that hour, and a row with
    another two-digit text gets a missing hour. *)
Theorem time_text_round_trip `{Runtime} (h m : Z) :
  (0 ≤ h ≤ 99)%Z → (0 ≤ m ≤ 99)%Z →
  strptime_HM (hhmm h m)
  = (if (h <=? 23)%Z && (m <=? 59)%Z then Some (h, m) else None)
  ∧ ∀ df p, col df "hrmn" !! p = Some (Str (hhmm h m)) →
            ∃ c, hour_col df !! p = Some c
                 ∧ if (h <=? 23)%Z && (m <=? 59)%Z
                   then astype_int_elem c = Ok (Int h)
                   else c = NA.
Proof.
  intros Hh Hm.
  assert (strptime_HM (hhmm h m)
          = (if (h <=? 23)%Z && (m <=? 59)%Z then Some (h, m) else None))
    as Hparse.
  { pose proof (hhmm_parse_ok_all (Z.to_nat h) (Z.to_nat m)) as Hok.
    unfold hhmm_parse_ok in Hok. rewrite !Z2Nat.id in Hok by lia.
    specialize (Hok ltac:(lia) ltac:(lia)).
    destruct (strptime_HM (hhmm h m)) as [[h' m']|].
    - apply andb_prop in Hok as [Hok Hm'%Z.eqb_eq].
      apply andb_prop in Hok as [Hok Hh'%Z.eqb_eq].
      apply andb_prop in Hok as [Hh24%Nat.ltb_lt Hm60%Nat.ltb_lt].
      subst. destruct (Z.leb_spec h 23), (Z.leb_spec m 59); try lia. done.
    - apply negb_true_iff, andb_false_iff in Hok.
      destruct (Z.leb_spec h 23), (Z.leb_spec m 59); try done.
      destruct Hok as [Hok%Nat.ltb_ge|Hok%Nat.ltb_ge]; lia. }
  split; [done|]. intros df p Hp.
  destruct ((h <=? 23)%Z && (m <=? 59)%Z) eqn:Hrange.
  - destruct (hour_col_parsed df p _ h m Hp Hparse) as (c & Hc & Hcell).
    exists c. split; [done|]. apply hour_cell_astype; [|done].
    apply andb_prop in Hrange as [?%Z.leb_le _]. lia.
  - exists NA. split; [|done]. rewrite hour_col_lookup, Hp. cbn.
    by rewrite Hparse.
Qed.

Lemma time_text_round_trip_witness :
  strptime_HM (hhmm 23 59) = Some (23, 59)%Z
  ∧ strptime_HM (hhmm 24 0) = None.
Proof.
  destruct (@time_text_round_trip sample_runtime 23 59) as [H1 _]; [lia..|].
  destruct (@time_text_round_trip sample_runtime 24 0) as [H2 _]; [lia..|].
  split; [exact H1|exact H2].
Defined.

(** ** Paths *)

Lemma append_nil_r (a : string) : (a ++ "")%string = a.
Proof.
  induction a as [|c a IH]; [done|].
  change (String c a ++ "")%string with (String c (a ++ "")). by rewrite IH.
Qed.









Section Directories.
Context `{Runtime}.






End Directories.

(** ** Runs of the script *)

Lemma take_mask_length_le {A : Type} (mask : list bool) (l : list A) :
  (length mask ≤ length l)%nat → length (take_mask mask l) = count_true mask.
Proof.
  unfold count_true. revert l.
  induction mask as [|b mask IH]; intros [|x l]; cbn; try done; try lia.
  intros Hle. destruct b; cbn; rewrite IH; (done || lia).
Qed.

Lemma notna_all_length_le n (cols : list Series) :
  (length (notna_all n cols) ≤ n)%nat.
Proof.
  induction cols as [|s cols IH]; cbn; [by rewrite length_replicate|].
  fold (notna_all n cols). rewrite length_zip_with. lia.
Qed.

(** The number of rows after the two filters. *)
Lemma kept_row_count `{Runtime} df :
  len (getitem_mask (converted df) (keep_mask df)) = count_true (keep_mask df).
Proof.
  unfold len, getitem_mask, converted. cbn [index].
  apply take_mask_length_le. unfold keep_mask, complete_mask.
  rewrite length_zip_with.
  pose proof (notna_all_length_le (len df)
                [date_col df; lat_col df; long_col df; col df "age"; hour_col df]).
  unfold len in *. lia.
Qed.

(** X12: when the raw file exists but [read_csv] raises another exception,
    the run prints the message of the exception after the start line,
    returns, and leaves the files and directories as they were. *)
Theorem unreadable_input_reported `{Runtime} w content msg :
  files w !! RAW_DATA_PATH = Some content →
  parse_csv content = inl msg →
  clean_data w
  = (mkWorld (files w) (dirs w)
       (stdout w ++
        [ ("Début du nettoyage... Lecture de " ++ RAW_DATA_PATH)%string;
          ("Une erreur est survenue lors de la lecture du CSV : " ++ msg)%string ]),
     Ok tt).
Proof.
  intros Hraw Hparse.
  unfold clean_data, mbind, M_bind, try, read_csv, print. run.
  rewrite Hraw. run. rewrite Hparse. run. by rewrite <- !app_assoc.
Qed.

Lemma unreadable_input_reported_witness :
  @clean_data sample_runtime unreadable_world
  = (mkWorld (files unreadable_world) (dirs unreadable_world)
       [ ("Début du nettoyage... Lecture de " ++ @RAW_DATA_PATH sample_runtime)%string;
         "Une erreur est survenue lors de la lecture du CSV : No columns to parse from file" ],
     Ok tt).
Proof.
  apply (@unreadable_input_reported sample_runtime unreadable_world ""
           "No columns to parse from file"); reflexivity.
Defined.

(** X13: when the table transformation raises, the run raises the same
    exception, writes no file and creates no directory.  If columns are
    absent, the exception is the KeyError naming them and only the start
    line was printed; otherwise the exception comes from the cast of an age
    on a kept row and the run has printed the start line and the number of
    rows removed. *)
Theorem failed_run_writes_nothing `{Runtime} w content df e :
  files w !! RAW_DATA_PATH = Some content →
  parse_csv content = inr df →
  clean_frame df = Raise e →
  ∃ lines,
    clean_data w
    = (mkWorld (files w) (dirs w)
         (stdout w
          ++ ("Début du nettoyage... Lecture de " ++ RAW_DATA_PATH)%string :: lines),
       Raise e)
    ∧ ((absent_labels df COLUMNS_TO_KEEP ≠ []
        ∧ e = KeyError (label_list (absent_labels df COLUMNS_TO_KEEP))
        ∧ lines = [])
       ∨ (absent_labels df COLUMNS_TO_KEEP = []
          ∧ (∃ p a, keep_mask df !! p = Some true ∧ col df "age" !! p = Some a
                    ∧ astype_int_elem a = Raise e)
          ∧ lines = [ ("Suppression de "
                       ++ pretty (len df - count_true (keep_mask df))
                       ++ " lignes avec données manquantes ou invalides.")%string ])).
Proof.
  intros Hraw Hparse Hfail.
  unfold clean_data, mbind, M_bind, try, read_csv, print, lift. run.
  rewrite Hraw. run. rewrite Hparse. run.
  unfold clean_frame in Hfail.
  destruct (select_and_convert df) as [d1|e1] eqn:Hd1.
  - apply select_and_convert_inv in Hd1 as [-> Hall].
    rewrite bind_Ok, drop_invalid_converted, bind_Ok in Hfail.
    rewrite drop_invalid_converted, Hfail. run.
    eexists. split; [by rewrite <- !app_assoc|]. right.
    split; [by apply absent_labels_nil|].
    split; [by apply finalize_types_raise|].
    change (len (converted df)) with (len df).
    by rewrite kept_row_count.
  - injection Hfail as ->. eexists. split; [done|]. left.
    destruct (getitem_cols_raise df COLUMNS_TO_KEEP e
                (select_and_convert_raise df e Hd1)) as [Habs He].
    done.
Qed.

Lemma failed_run_writes_nothing_witness :
  @clean_data sample_runtime age_text_world
  = (mkWorld (files age_text_world) (dirs age_text_world)
       [ ("Début du nettoyage... Lecture de " ++ @RAW_DATA_PATH sample_runtime)%string;
         "Suppression de 0 lignes avec données manquantes ou invalides." ],
     Raise (ValueError "invalid literal for int() with base 10")).
Proof.
  destruct (@failed_run_writes_nothing sample_runtime age_text_world age_text_csv
              age_text_frame (ValueError "invalid literal for int() with base 10")
              eq_refl eq_refl eq_refl)
    as (lines & Hrun & [(Habs & _)|(_ & _ & ->)]).
  - by exfalso; apply Habs.
  - exact Hrun.
Defined.




(** X15: whatever happens, a run changes no file other than the output
    file; in particular it never changes the raw file. *)
Theorem only_output_file_changes `{Runtime} w :
  (∀ path, path ≠ CLEANED_DATA_PATH →
           files (clean_data w).1 !! path = files w !! path)
  ∧ files (clean_data w).1 !! RAW_DATA_PATH = files w !! RAW_DATA_PATH.
Proof.
  assert (∀ path, path ≠ CLEANED_DATA_PATH →
                  files (clean_data w).1 !! path = files w !! path) as Hother.
  { intros path Hpath.
    destruct (clean_data_files w) as [->|[content ->]]; [done|].
    by apply lookup_insert_ne. }
  split; [done|]. apply Hother, raw_path_not_cleaned_path.
Qed.



(** X17: for a row that passes both filters, the output holds the
    converted fields: [date] is the timestamp read from the input date and
    [lat] and [long] are the numbers read from the input coordinates. *)
Theorem converted_fields_of_kept_row `{Runtime} df out p d la lo :
  clean_frame df = Ok out →
  keep_mask df !! p = Some true →
  col df "date" !! p = Some d →
  col df "lat" !! p = Some la →
  col df "long" !! p = Some lo →
  (∃ ns, parse_datetime (col df "date") d = Some ns
         ∧ col out "date" !! rank (keep_mask df) p = Some (Timestamp ns))
  ∧ col out "lat" !! rank (keep_mask df) p = Some (to_numeric_elem la)
  ∧ col out "long" !! rank (keep_mask df) p = Some (to_numeric_elem lo).
Proof.
  intros (age & hour & _ & _ & -> & _)%clean_frame_inv Hk Hd Hla Hlo.
  pose proof Hk as (_ & (c & Hc & Hcn) & _)%keep_mask_lookup.
  split; [|split].
  - change (col (cleaned df age hour) "date")
      with (take_mask (keep_mask df) (date_col df)).
    rewrite take_mask_lookup_eq by done.
    rewrite date_col_lookup, Hd in Hc |- *. cbn in *. injection Hc as <-.
    destruct (isna d); [done|].
    destruct (parse_datetime (col df "date") d) as [ns|]; [eauto|done].
  - change (col (cleaned df age hour) "lat")
      with (take_mask (keep_mask df) (lat_col df)).
    by rewrite take_mask_lookup_eq, lat_col_lookup, Hla.
  - change (col (cleaned df age hour) "long")
      with (take_mask (keep_mask df) (long_col df)).
    by rewrite take_mask_lookup_eq, long_col_lookup, Hlo.
Qed.

Lemma converted_fields_of_kept_row_witness :
  col sample_out "date" !! 1 = Some (Timestamp 1620086400000000000)
  ∧ col sample_out "long" !! 1 = Some (Float (S754_zero false)).
Proof.
  destruct (@converted_fields_of_kept_row sample_runtime sample_frame sample_out
              3 (Str "2021-05-04") (Float (S754_finite false 7247980650299392 (-47))) (Float (S754_zero false))
              eq_refl eq_refl eq_refl)
    as ((ns & Hns & Hdate) & _ & Hlong); [reflexivity..|].
  split; [|exact Hlong].
  injection Hns as <-. exact Hdate.
Defined.
